(** * The design studio of the T-shirt storefront: model and properties

    A shallow embedding of the [DesignCanvas] React component (the design
    composition and pricing engine of the storefront). The component state
    held in [useState] cells is a record [State]; every event handler is a
    function from the state of the render it closes over, and from the
    outcome of the asynchronous calls it awaits, to the state after its
    [setState] calls together with the trace of the effects it performed
    (toasts, console output, HTTP requests, cart mutations).

    A string is the UTF-8 encoding of the JavaScript string. JavaScript
    numbers that are integers in the component (coordinates, quantity,
    clock readings) are [Z]; prices and the image scaling use an abstract
    number structure [JsNumber], and upper-casing an abstract structure
    [JsText], so that what is proved depends neither on floating-point
    rounding nor on the Unicode case tables. *)

From Stdlib Require Import ZArith QArith Qabs Qround Ascii String List Bool
  Lia.
From stdpp Require Import base strings list gmap pretty.

Local Open Scope Z_scope.
Local Open Scope string_scope.

(** ** JavaScript strings *)

Module JsString.

(** A string is held as the UTF-8 bytes of the JavaScript string (a lone
    surrogate as the three bytes of its code unit), so that every
    JavaScript string is exactly one byte string.

    The code points of [WhiteSpace] and [LineTerminator] in ECMAScript,
    which [trim] and [parseFloat] strip: the ASCII controls 9 to 13, the
    space, the no-break space, U+1680, U+2000 to U+200A, the line and
    paragraph separators, U+202F, U+205F, U+3000 and U+FEFF. *)
Definition isWhiteSpace (cp : N) : bool :=
  ((9 <=? cp) && (cp <=? 13) || (cp =? 32) || (cp =? 160) || (cp =? 5760)
   || (8192 <=? cp) && (cp <=? 8202) || (cp =? 8232) || (cp =? 8233)
   || (cp =? 8239) || (cp =? 8287) || (cp =? 12288) || (cp =? 65279))%N.

(** The character a string starts with, when it takes one, two or three
    bytes (a character of four bytes is never white space). *)
Definition continuation (b : N) : bool := ((128 <=? b) && (b <? 192))%N.

Definition scalar1 (a : ascii) : option N :=
  let a := N_of_ascii a in
  if (a <? 128)%N then Some a else None.

Definition scalar2 (a b : ascii) : option N :=
  let a := N_of_ascii a in
  let b := N_of_ascii b in
  if ((194 <=? a) && (a <? 224))%N && continuation b
  then Some ((a - 192) * 64 + (b - 128))%N
  else None.

Definition scalar3 (a b c : ascii) : option N :=
  let a := N_of_ascii a in
  let b := N_of_ascii b in
  let c := N_of_ascii c in
  let cp := ((a - 224) * 4096 + (b - 128) * 64 + (c - 128))%N in
  if ((224 <=? a) && (a <? 240))%N && continuation b && continuation c
     && (2048 <=? cp)%N
  then Some cp
  else None.

Definition white (o : option N) : bool :=
  match o with
  | Some cp => isWhiteSpace cp
  | None => false
  end.

(** [String.prototype.trimStart]. *)
Fixpoint trimStart (s : string) : string :=
  match s with
  | EmptyString => s
  | String a r1 =>
      if white (scalar1 a) then trimStart r1
      else
        match r1 with
        | EmptyString => s
        | String b r2 =>
            if white (scalar2 a b) then trimStart r2
            else
              match r2 with
              | EmptyString => s
              | String c r3 =>
                  if white (scalar3 a b c) then trimStart r3 else s
              end
        end
  end.

(** The same on the reversed string: the bytes of the last character come
    first, last byte first. *)
Fixpoint trimStartReversed (s : string) : string :=
  match s with
  | EmptyString => s
  | String c r1 =>
      if white (scalar1 c) then trimStartReversed r1
      else
        match r1 with
        | EmptyString => s
        | String b r2 =>
            if white (scalar2 b c) then trimStartReversed r2
            else
              match r2 with
              | EmptyString => s
              | String a r3 =>
                  if white (scalar3 a b c) then trimStartReversed r3 else s
              end
        end
  end.

(** [String.prototype.trimEnd]. *)
Definition trimEnd (s : string) : string :=
  String.rev (trimStartReversed (String.rev s)).

(** [String.prototype.trim]. *)
Definition trim (s : string) : string := trimEnd (trimStart s).

(** JavaScript truthiness of a string: only the empty string is falsy. *)
Definition truthy (s : string) : bool :=
  match s with EmptyString => false | String _ _ => true end.

(** What "white space" means to a reader of the ECMAScript text: the list
    of its code points, and the strings that are made of their encodings
    and nothing else. *)
Definition whiteSpaceCodePoints : list N :=
  [9; 10; 11; 12; 13; 32; 160; 5760;
   8192; 8193; 8194; 8195; 8196; 8197; 8198; 8199; 8200; 8201; 8202;
   8232; 8233; 8239; 8287; 12288; 65279]%N.

(** The UTF-8 bytes of a code point below 65536. *)
Definition utf8 (cp : N) : string :=
  if (cp <? 128)%N then String (ascii_of_N cp) ""
  else if (cp <? 2048)%N then
    String (ascii_of_N (192 + cp / 64))
      (String (ascii_of_N (128 + cp mod 64)) "")
  else
    String (ascii_of_N (224 + cp / 4096))
      (String (ascii_of_N (128 + (cp / 64) mod 64))
         (String (ascii_of_N (128 + cp mod 64)) "")).

Inductive Blank : string -> Prop :=
| Blank_empty : Blank ""
| Blank_more (cp : N) (s : string) :
    cp ∈ whiteSpaceCodePoints -> Blank s -> Blank (utf8 cp +:+ s).

Definition upperChar (c : ascii) : ascii :=
  let n := N_of_ascii c in
  if ((97 <=? n) && (n <=? 122))%N then ascii_of_N (n - 32) else c.

(** What [String.prototype.toUpperCase] does to ASCII text: the letters a
    to z become A to Z. *)
Fixpoint asciiUpperCase (s : string) : string :=
  match s with
  | EmptyString => EmptyString
  | String c r => String (upperChar c) (asciiUpperCase r)
  end.

Fixpoint isAscii (s : string) : bool :=
  match s with
  | EmptyString => true
  | String c r => (N_of_ascii c <? 128)%N && isAscii r
  end.

(** [Number.prototype.toString] of an integer: decimal digits, with a
    leading minus sign for a negative one. *)
Definition ofInteger (z : Z) : string := pretty z.

End JsString.

(** ** JavaScript numbers

    The operations the component applies to non-integer numbers. The one
    law is that adding the integer zero changes nothing (on IEEE doubles it
    holds up to the sign of zero, which [toFixed] does not print). *)

Class JsNumber (num : Type) : Type := {
  ofZ : Z -> num;
  parseFloat : string -> num;
  toFixed2 : num -> string;
  nadd : num -> num -> num;
  nsub : num -> num -> num;
  nmul : num -> num -> num;
  ndiv : num -> num -> num;
  ngtb : num -> num -> bool;
  nadd_zero : forall x, nadd x (ofZ 0) = x
}.

(** ** JavaScript text built-ins

    [String.prototype.toUpperCase] follows the Unicode case tables, which
    are not reproduced here: the component is verified for any function
    that upper-cases ASCII text as JavaScript does. *)

Class JsText : Type := {
  toUpperCase : string -> string;
  toUpperCase_ascii :
    forall s, JsString.isAscii s = true ->
      toUpperCase s = JsString.asciiUpperCase s
}.

(** ** Data model *)

Module Product.
Record t : Type := mk {
  id : string;
  name : string;
  description : string;
  basePrice : string;
  category : string;
  colors : list string;
  sizes : list string;
  imageUrl : option string
}.
End Product.

Inductive ElementType : Type := text | shape | image.

Module DesignElement.
(** [fontSize] and [fontFamily] are optional; [None] also stands for a
    [NaN] font size, which [fontSize || 24] treats the same way. *)
Record t : Type := mk {
  id : string;
  type : ElementType;
  content : string;
  x : Z;
  y : Z;
  width : Z;
  height : Z;
  color : string;
  fontSize : option Z;
  fontFamily : option string
}.
End DesignElement.

Inductive Tool : Type := ToolText | ToolShapes | ToolImages | ToolColors.

Inductive ShapeType : Type := rectangle | circle.

Definition shapeName (k : ShapeType) : string :=
  match k with rectangle => "rectangle" | circle => "circle" end.

(** A loaded [HTMLImageElement]: only its intrinsic size is read. *)
Record Image : Type := { imgWidth : Z; imgHeight : Z }.

(** The [useState] cells of the component. [selectedColor] and
    [selectedSize] are [None] when they hold [undefined], which is what
    [product.colors[0]] yields on an empty array; [fontSize] is [None] when
    it holds [NaN] ([parseInt] of an empty input). *)
Record State : Type := mkState {
  products : list Product.t;
  selectedProduct : option Product.t;
  elements : list DesignElement.t;
  selectedTool : Tool;
  selectedColor : option string;
  selectedSize : option string;
  textInput : string;
  textColor : string;
  fontSize : option Z;
  fontFamily : string;
  quantity : Z;
  isLoading : bool;
  savedDesignId : option string;
  tshirtImages : gmap string Image;
  imagesLoaded : bool
}.

(** The state of the first render. *)
Definition initialState : State :=
  {| products := []; selectedProduct := None; elements := [];
     selectedTool := ToolText;
     selectedColor := Some "white"; selectedSize := Some "M";
     textInput := ""; textColor := "#000000";
     fontSize := Some 24; fontFamily := "Arial";
     quantity := 1; isLoading := false; savedDesignId := None;
     tshirtImages := ∅; imagesLoaded := false |}.

(** The property names every plain object inherits from [Object.prototype]
    in a browser. *)
Definition objectPrototypeKeys : list string :=
  ["constructor"; "hasOwnProperty"; "isPrototypeOf"; "propertyIsEnumerable";
   "toLocaleString"; "toString"; "valueOf"; "__proto__";
   "__defineGetter__"; "__defineSetter__"; "__lookupGetter__";
   "__lookupSetter__"].

(** What reading a property of the mockup object yields: the image stored
    under that name, a member inherited from [Object.prototype] (a function,
    or the prototype itself for [__proto__]), or [undefined]. *)
Inductive Member : Type :=
| OwnImage (img : Image)
| InheritedMember
| UndefinedMember.

Definition getMember (m : gmap string Image) (key : string) : Member :=
  match m !! key with
  | Some img => OwnImage img
  | None =>
      if bool_decide (key ∈ objectPrototypeKeys) then InheritedMember
      else UndefinedMember
  end.

(** *** State setters *)

Definition setSelectedProduct (p : option Product.t) (s : State) : State :=
  mkState (products s) p (elements s) (selectedTool s) (selectedColor s)
    (selectedSize s) (textInput s) (textColor s) (fontSize s) (fontFamily s)
    (quantity s) (isLoading s) (savedDesignId s) (tshirtImages s)
    (imagesLoaded s).

Definition setElements (els : list DesignElement.t) (s : State) : State :=
  mkState (products s) (selectedProduct s) els (selectedTool s)
    (selectedColor s) (selectedSize s) (textInput s) (textColor s)
    (fontSize s) (fontFamily s) (quantity s) (isLoading s) (savedDesignId s)
    (tshirtImages s) (imagesLoaded s).

Definition setSelectedColor (c : option string) (s : State) : State :=
  mkState (products s) (selectedProduct s) (elements s) (selectedTool s) c
    (selectedSize s) (textInput s) (textColor s) (fontSize s) (fontFamily s)
    (quantity s) (isLoading s) (savedDesignId s) (tshirtImages s)
    (imagesLoaded s).

Definition setSelectedSize (z : option string) (s : State) : State :=
  mkState (products s) (selectedProduct s) (elements s) (selectedTool s)
    (selectedColor s) z (textInput s) (textColor s) (fontSize s)
    (fontFamily s) (quantity s) (isLoading s) (savedDesignId s)
    (tshirtImages s) (imagesLoaded s).

Definition setTextInput (t : string) (s : State) : State :=
  mkState (products s) (selectedProduct s) (elements s) (selectedTool s)
    (selectedColor s) (selectedSize s) t (textColor s) (fontSize s)
    (fontFamily s) (quantity s) (isLoading s) (savedDesignId s)
    (tshirtImages s) (imagesLoaded s).

Definition setQuantity (q : Z) (s : State) : State :=
  mkState (products s) (selectedProduct s) (elements s) (selectedTool s)
    (selectedColor s) (selectedSize s) (textInput s) (textColor s)
    (fontSize s) (fontFamily s) q (isLoading s) (savedDesignId s)
    (tshirtImages s) (imagesLoaded s).

Definition setIsLoading (b : bool) (s : State) : State :=
  mkState (products s) (selectedProduct s) (elements s) (selectedTool s)
    (selectedColor s) (selectedSize s) (textInput s) (textColor s)
    (fontSize s) (fontFamily s) (quantity s) b (savedDesignId s)
    (tshirtImages s) (imagesLoaded s).

Definition setSelectedTool (tool : Tool) (s : State) : State :=
  mkState (products s) (selectedProduct s) (elements s) tool
    (selectedColor s) (selectedSize s) (textInput s) (textColor s)
    (fontSize s) (fontFamily s) (quantity s) (isLoading s) (savedDesignId s)
    (tshirtImages s) (imagesLoaded s).

Definition setTextColor (c : string) (s : State) : State :=
  mkState (products s) (selectedProduct s) (elements s) (selectedTool s)
    (selectedColor s) (selectedSize s) (textInput s) c
    (fontSize s) (fontFamily s) (quantity s) (isLoading s) (savedDesignId s)
    (tshirtImages s) (imagesLoaded s).

Definition setFontSize (n : option Z) (s : State) : State :=
  mkState (products s) (selectedProduct s) (elements s) (selectedTool s)
    (selectedColor s) (selectedSize s) (textInput s) (textColor s)
    n (fontFamily s) (quantity s) (isLoading s) (savedDesignId s)
    (tshirtImages s) (imagesLoaded s).

Definition setFontFamily (f : string) (s : State) : State :=
  mkState (products s) (selectedProduct s) (elements s) (selectedTool s)
    (selectedColor s) (selectedSize s) (textInput s) (textColor s)
    (fontSize s) f (quantity s) (isLoading s) (savedDesignId s)
    (tshirtImages s) (imagesLoaded s).

Definition setSavedDesignId (d : option string) (s : State) : State :=
  mkState (products s) (selectedProduct s) (elements s) (selectedTool s)
    (selectedColor s) (selectedSize s) (textInput s) (textColor s)
    (fontSize s) (fontFamily s) (quantity s) (isLoading s) d
    (tshirtImages s) (imagesLoaded s).

(** ** Collaborators and effects *)

(** Modelled from the spec: the identity source, [currentUser() ->
    UserIdentity | none] (the [useAuth] hook is not part of the sources).
    The component only tests whether a user is present. *)
Record User : Type := { userId : string }.

(** The mounted [<canvas>] element: its size, whether a 2D context can be
    obtained, and the PNG data URI of its current raster (the mockups are
    served from the same origin, so reading it does not throw). *)
Record Canvas : Type := {
  canvasWidth : Z;
  canvasHeight : Z;
  context2d : bool;
  toDataURL : string
}.

(** What the component is given from outside in one render: the signed-in
    user, if any, and the canvas behind [canvasRef], if mounted. *)
Record World : Type := { user : option User; canvasRef : option Canvas }.

Module DesignData.
Record t : Type := mk {
  product : Product.t;
  elements : list DesignElement.t;
  color : option string;
  size : option string
}.
End DesignData.

(** The JSON body of [POST /api/designs]. *)
Module DesignBody.
Record t : Type := mk {
  name : string;
  designData : DesignData.t;
  thumbnail : option string
}.
End DesignBody.

Module CartItemData.
Record t : Type := mk {
  productId : string;
  designId : option string;
  quantity : Z;
  size : option string;
  color : option string;
  customPrice : string
}.
End CartItemData.

Inductive Effect : Type :=
| ToastError (msg : string)
| ToastSuccess (msg : string)
| ConsoleError (label : string)
| PostDesign (body : DesignBody.t)
| MutateAddToCart (item : CartItemData.t).

(** How the awaited [fetch('/api/designs', POST)] turns out: a 2xx response
    whose JSON carries the identifier of the created design, a response
    that is not [ok], or a rejected promise. *)
Inductive FetchOutcome : Type :=
| FetchOk (id : string)
| FetchNotOk
| FetchRejected.

(** How the awaited [addToCartMutation.mutateAsync] turns out. *)
Inductive MutationOutcome : Type := MutationResolved | MutationRejected.

(** A finished handler: the value it returns, the state after its
    [setState] calls and the effects it performed, oldest first. *)
Record Run (A : Type) : Type := mkRun {
  result : A;
  final : State;
  trace : list Effect
}.
Arguments mkRun {A} _ _ _.
Arguments result {A} _.
Arguments final {A} _.
Arguments trace {A} _.

(** JavaScript truthiness of a [string | null]. *)
Definition truthyId (d : option string) : bool :=
  match d with
  | Some i => JsString.truthy i
  | None => false
  end.

(** ** Selection handlers *)

(** [onValueChange] of the product [Select]. *)
Definition onProductChange (value : string) (s : State) : State :=
  match List.find (fun p => String.eqb (Product.id p) value) (products s) with
  | Some product =>
      setSelectedSize (Product.sizes product !! 0%nat)
        (setSelectedColor (Product.colors product !! 0%nat)
           (setSelectedProduct (Some product) s))
  | None => s
  end.

(** [onValueChange] of the color [Select] and [onClick] of a color button:
    the state setter itself. *)
Definition onColorChange (value : string) (s : State) : State :=
  setSelectedColor (Some value) s.

(** [onValueChange] of either size [Select]. *)
Definition onSizeChange (value : string) (s : State) : State :=
  setSelectedSize (Some value) s.

(** The items the color and size widgets offer. *)
Definition colorOptions (s : State) : list string :=
  match selectedProduct s with
  | Some p => Product.colors p
  | None => []
  end.

Definition sizeOptions (s : State) : list string :=
  match selectedProduct s with
  | Some p => Product.sizes p
  | None => []
  end.

(** The quantity buttons, and the quantity input given [parseInt] of its
    text ([None] for [NaN]). The quantity is held as an integer, which is
    what the component's number is up to 2^53; from there on [quantity + 1]
    and [quantity - 1] round, and these definitions no longer describe
    them. *)
Definition decreaseQuantity (s : State) : State :=
  setQuantity (Z.max 1 (quantity s - 1)) s.

Definition increaseQuantity (s : State) : State :=
  setQuantity (quantity s + 1) s.

Definition onQuantityInput (parsed : option Z) (s : State) : State :=
  let n := match parsed with
           | Some v => if (v =? 0)%Z then 1 else v
           | None => 1
           end in
  setQuantity (Z.max 1 n) s.

(** ** Element handlers

    [now] is the reading of [Date.now()] taken by the handler. *)

Definition newTextElement (now : Z) (s : State) : DesignElement.t :=
  DesignElement.mk (JsString.ofInteger now) text (textInput s)
    160 200 100 30 (textColor s) (fontSize s) (Some (fontFamily s)).

Definition addText (now : Z) (s : State) : State :=
  if negb (JsString.truthy (JsString.trim (textInput s))) then s
  else setTextInput "" (setElements (elements s ++ [newTextElement now s]) s).

Definition newShapeElement (now : Z) (shapeType : ShapeType) (s : State)
  : DesignElement.t :=
  DesignElement.mk (JsString.ofInteger now) shape (shapeName shapeType)
    160 200 60 60 (textColor s) None None.

Definition addShape (now : Z) (shapeType : ShapeType) (s : State) : State :=
  setElements (elements s ++ [newShapeElement now shapeType s]) s.

(** An editing operation with the clock reading it takes. *)
Inductive EditOp : Type :=
| OpAddText (now : Z) (input : string)
| OpAddShape (now : Z) (shapeType : ShapeType).

Definition opTime (o : EditOp) : Z :=
  match o with OpAddText t _ => t | OpAddShape t _ => t end.

(** Typing [input] and pressing the add-text button, or pressing a shape
    button; each handler runs on the state of the latest render. *)
Definition applyOp (s : State) (o : EditOp) : State :=
  match o with
  | OpAddText t input => addText t (setTextInput input s)
  | OpAddShape t k => addShape t k s
  end.

Definition applyOps (s : State) (ops : list EditOp) : State :=
  fold_left applyOp ops s.

(** Anything the shopper does between two saves: editing, picking a
    product, a color or a size, changing the quantity, typing in the text
    field, choosing the text color, the font size ([parseInt] of the
    field, [None] for [NaN]) or the font family, or switching the tool
    tab. *)
Inductive SessionOp : Type :=
| Edit (o : EditOp)
| PickProduct (value : string)
| PickColor (value : string)
| PickSize (value : string)
| QuantityInput (parsed : option Z)
| QuantityUp
| QuantityDown
| TypeText (value : string)
| PickTextColor (value : string)
| FontSizeInput (parsed : option Z)
| PickFontFamily (value : string)
| PickTool (tool : Tool).

Definition sessionStep (s : State) (o : SessionOp) : State :=
  match o with
  | Edit e => applyOp s e
  | PickProduct value => onProductChange value s
  | PickColor value => onColorChange value s
  | PickSize value => onSizeChange value s
  | QuantityInput parsed => onQuantityInput parsed s
  | QuantityUp => increaseQuantity s
  | QuantityDown => decreaseQuantity s
  | TypeText value => setTextInput value s
  | PickTextColor value => setTextColor value s
  | FontSizeInput parsed => setFontSize parsed s
  | PickFontFamily value => setFontFamily value s
  | PickTool tool => setSelectedTool tool s
  end.

Definition sessionRun (s : State) (ops : list SessionOp) : State :=
  fold_left sessionStep ops s.

(** ** Saving *)

Definition saveDesign (w : World) (resp : FetchOutcome) (s : State)
  : Run (option string) :=
  match user w with
  | None => mkRun None s [ToastError "Please login to save designs"]
  | Some _ =>
      match selectedProduct s with
      | None =>
          mkRun None s
            [ToastError "Please select a product and add some design elements"]
      | Some p =>
          if (length (elements s) =? 0)%nat then
            mkRun None s
              [ToastError "Please select a product and add some design elements"]
          else
            let s1 := setIsLoading true s in
            let thumbnail := toDataURL <$> canvasRef w in
            let designData :=
              DesignData.mk p (elements s) (selectedColor s) (selectedSize s) in
            let body :=
              DesignBody.mk (Product.name p +:+ " Design") designData thumbnail in
            match resp with
            | FetchOk id =>
                mkRun (Some id)
                  (setIsLoading false (setSavedDesignId (Some id) s1))
                  [PostDesign body; ToastSuccess "Design saved successfully!"]
            | FetchNotOk | FetchRejected =>
                mkRun None (setIsLoading false s1)
                  [PostDesign body; ConsoleError "Save design error:";
                   ToastError "Failed to save design"]
            end
      end
  end.

(** The failure taxonomy of the specification. The component has no error
    values: a failed save returns [null] after an error toast, and the
    toast tells the failures apart. *)
Inductive Failure : Type := NotAuthenticated | ValidationError | Unavailable.

Definition failureOfNotice (e : Effect) : option Failure :=
  match e with
  | ToastError msg =>
      if String.eqb msg "Please login to save designs"
      then Some NotAuthenticated
      else if String.eqb msg
                "Please select a product and add some design elements"
      then Some ValidationError
      else if String.eqb msg "Failed to save design" then Some Unavailable
      else None
  | _ => None
  end.

(** The failure a finished save reports, if it failed. *)
Definition saveFailure (r : Run (option string)) : option Failure :=
  match result r with
  | Some _ => None
  | None => head (omap failureOfNotice (trace r))
  end.

(** The number of design-creation requests in a trace. *)
Definition isPost (e : Effect) : bool :=
  match e with PostDesign _ => true | _ => false end.

Definition postCount (t : list Effect) : nat := length (filter isPost t).

(** The cart items submitted in a trace. *)
Definition cartItems (t : list Effect) : list CartItemData.t :=
  omap (fun e => match e with MutateAddToCart i => Some i | _ => None end) t.

Section WithNumbers.

Context {num : Type} {JN : JsNumber num} {JT : JsText}.

(** ** Pricing *)

(** [parseFloat(basePrice) + (elements.length > 0 ? 5 : 0)]. *)
Definition unitPrice (p : Product.t) (els : list DesignElement.t) : num :=
  nadd (parseFloat (Product.basePrice p))
       (ofZ (if (0 <? length els)%nat then 5 else 0)).

Definition totalPrice (p : Product.t) (els : list DesignElement.t) (q : Z)
  : num :=
  nmul (unitPrice p els) (ofZ q).

(** The prices of the product info panel, which is rendered only when a
    product is selected, and the strings it shows. *)
Definition derivedUnitPrice (s : State) : option num :=
  (fun p => unitPrice p (elements s)) <$> selectedProduct s.

Definition derivedTotalPrice (s : State) : option num :=
  (fun p => totalPrice p (elements s) (quantity s)) <$> selectedProduct s.

Definition unitPriceText (s : State) : option string :=
  toFixed2 <$> derivedUnitPrice s.

Definition totalPriceText (s : State) : option string :=
  toFixed2 <$> derivedTotalPrice s.

(** ** Adding to the cart *)

Definition addToCartWithDesign (w : World) (saveResp : FetchOutcome)
    (cartResp : MutationOutcome) (s : State) : Run unit :=
  match user w with
  | None => mkRun tt s [ToastError "Please login to add items to cart"]
  | Some _ =>
      match selectedProduct s with
      | None => mkRun tt s [ToastError "Please select a product first"]
      | Some p =>
          let s1 := setIsLoading true s in
          let saved :=
            if (0 <? length (elements s))%nat
               && negb (truthyId (savedDesignId s))
            then saveDesign w saveResp s1
            else mkRun (savedDesignId s) s1 [] in
          let customPrice := toFixed2 (unitPrice p (elements s)) in
          let cartItemData :=
            CartItemData.mk (Product.id p) (result saved) (quantity s)
              (selectedSize s) (selectedColor s) customPrice in
          let rejected :=
            match cartResp with
            | MutationResolved => []
            | MutationRejected =>
                [ConsoleError "Add to cart error:";
                 ToastError "Failed to add to cart"]
            end in
          mkRun tt (setIsLoading false (final saved))
            (trace saved ++ MutateAddToCart cartItemData :: rejected)
      end
  end.

(** ** Rendering *)

Inductive DrawCmd : Type :=
| ClearRect (x y w h : num)
| DrawImage (img : Image) (dx dy dw dh : num)
| FillRect (fillStyle : string) (x y w h : num)
| StrokeRect (strokeStyle : string) (lineWidth : Z) (x y w h : num)
| FillText (fillStyle font textAlign txt : string) (x y : num)
| FillArc (fillStyle : string) (cx cy r : num).

(** How a call of [drawCanvas] ends: normally, or with a [TypeError], that
    of [drawImage] given something that is not an image or that of calling
    [toUpperCase] on [undefined]. *)
Inductive Completion : Type := Normal | TypeError.

Definition colorIs (c : option string) (k : string) : bool :=
  match c with
  | Some v => String.eqb v k
  | None => false
  end.

(** The solid background of the branch taken without a mockup image. *)
Definition solidFill (c : option string) : string :=
  if colorIs c "white" then "#ffffff"
  else if colorIs c "black" then "#000000"
  else if colorIs c "navy" then "#1e3a8a"
  else if colorIs c "red" then "#ef4444"
  else if colorIs c "natural" then "#f5f5dc"
  else "#ffffff".

(** The property key [selectedColor] is coerced to. *)
Definition colorKey (c : option string) : string :=
  match c with
  | Some v => v
  | None => "undefined"
  end.

(** The background: the mockup image fitted into the canvas when a product
    is selected, the mockups are loaded and the mockup object yields
    something for the color; a solid fill otherwise. (The solid fill nested
    under the image test in the source cannot be reached.) What the object
    yields need not be an image: for an inherited member the sizes are
    [undefined], and [drawImage] throws a [TypeError] before drawing
    anything, which is the result [None]. *)
Definition drawBackground (cv : Canvas) (s : State) : option DrawCmd :=
  let cw := ofZ (canvasWidth cv) in
  let ch := ofZ (canvasHeight cv) in
  let solid := FillRect (solidFill (selectedColor s)) (ofZ 0) (ofZ 0) cw ch in
  match selectedProduct s, imagesLoaded s with
  | Some _, true =>
      match getMember (tshirtImages s) (colorKey (selectedColor s)) with
      | OwnImage tshirtImage =>
          let canvasRatio := ndiv cw ch in
          let imageRatio :=
            ndiv (ofZ (imgWidth tshirtImage)) (ofZ (imgHeight tshirtImage)) in
          if ngtb imageRatio canvasRatio then
            let drawHeight := ndiv cw imageRatio in
            Some (DrawImage tshirtImage (ofZ 0)
                    (ndiv (nsub ch drawHeight) (ofZ 2)) cw drawHeight)
          else
            let drawWidth := nmul ch imageRatio in
            Some (DrawImage tshirtImage (ndiv (nsub cw drawWidth) (ofZ 2))
                    (ofZ 0) drawWidth ch)
      | InheritedMember => None
      | UndefinedMember => Some solid
      end
  | _, _ => Some solid
  end.

(** [element.fontSize || 24] and [element.fontFamily || 'Arial']. *)
Definition fontOf (e : DesignElement.t) : string :=
  let size := match DesignElement.fontSize e with
              | Some n => if (n =? 0)%Z then 24 else n
              | None => 24
              end in
  let family := match DesignElement.fontFamily e with
                | Some f => if JsString.truthy f then f else "Arial"
                | None => "Arial"
                end in
  JsString.ofInteger size +:+ "px " +:+ family.

Definition drawElement (e : DesignElement.t) : list DrawCmd :=
  let ex := ofZ (DesignElement.x e) in
  let ey := ofZ (DesignElement.y e) in
  let ew := ofZ (DesignElement.width e) in
  let eh := ofZ (DesignElement.height e) in
  match DesignElement.type e with
  | text =>
      [FillText (DesignElement.color e) (fontOf e) "center"
         (DesignElement.content e) ex ey]
  | shape =>
      if String.eqb (DesignElement.content e) "rectangle" then
        [FillRect (DesignElement.color e)
           (nsub ex (ndiv ew (ofZ 2))) (nsub ey (ndiv eh (ofZ 2))) ew eh]
      else if String.eqb (DesignElement.content e) "circle" then
        [FillArc (DesignElement.color e) ex ey (ndiv ew (ofZ 2))]
      else []
  | image => []
  end.

(** The text of the product info overlay. *)
Definition overlayLabel (p : Product.t) (c : string) : string :=
  Product.name p +:+ " - " +:+ toUpperCase c.

Definition drawOverlay (s : State) : list DrawCmd * Completion :=
  match selectedProduct s with
  | None => ([], Normal)
  | Some p =>
      match selectedColor s with
      | None => ([FillRect "rgba(0, 0, 0, 0.7)" (ofZ 5) (ofZ 5) (ofZ 200) (ofZ 25)],
                 TypeError)
      | Some c =>
          ([FillRect "rgba(0, 0, 0, 0.7)" (ofZ 5) (ofZ 5) (ofZ 200) (ofZ 25);
            FillText "#ffffff" "12px Arial" "left" (overlayLabel p c)
              (ofZ 10) (ofZ 22)],
           Normal)
      end
  end.

(** [drawCanvas]: the drawing commands issued on the 2D context, in order,
    and how the call ends. *)
Definition drawCanvas (w : World) (s : State) : list DrawCmd * Completion :=
  match canvasRef w with
  | None => ([], Normal)
  | Some cv =>
      if negb (context2d cv) then ([], Normal)
      else
        let cw := ofZ (canvasWidth cv) in
        let ch := ofZ (canvasHeight cv) in
        let overlay := drawOverlay s in
        match drawBackground cv s with
        | None => ([ClearRect (ofZ 0) (ofZ 0) cw ch], TypeError)
        | Some background =>
            (ClearRect (ofZ 0) (ofZ 0) cw ch
               :: background
               :: StrokeRect "#e5e7eb" 2 (ofZ 0) (ofZ 0) cw ch
               :: concat (map drawElement (elements s))
               ++ overlay.1,
             overlay.2)
        end
  end.

(** The texts drawn with the overlay's style: the labels a render shows. *)
Definition labelsOf (cmds : list DrawCmd) : list string :=
  omap (fun c => match c with
                 | FillText _ _ align txt _ _ =>
                     if String.eqb align "left" then Some txt else None
                 | _ => None
                 end) cmds.

End WithNumbers.

Arguments DrawCmd : clear implicits.

(** ** An exact interpretation of the numbers

    Rationals, with [None] for [NaN] (and for the infinities, which the
    prices never reach). It runs the component on decimal prices, where
    doubles and rationals print the same two decimals. *)

Module Exact.

Definition digitOf (c : ascii) : option Z :=
  let n := N_of_ascii c in
  if ((48 <=? n) && (n <=? 57))%N then Some (Z.of_N n - 48) else None.

(** Reads a run of decimal digits: its value on top of [acc], how many
    digits were read on top of [count], and the rest of the string. *)
Fixpoint readDigits (s : string) (acc : Z) (count : nat)
  : Z * nat * string :=
  match s with
  | EmptyString => (acc, count, s)
  | String c r =>
      match digitOf c with
      | Some d => readDigits r (10 * acc + d) (S count)
      | None => (acc, count, s)
      end
  end.

Definition readSign (s : string) : bool * string :=
  match s with
  | String "-" r => (true, r)
  | String "+" r => (false, r)
  | _ => (false, s)
  end.

Definition pow10 (n : Z) : Q :=
  if (0 <=? n)%Z then inject_Z (10 ^ n) else Qinv (inject_Z (10 ^ (- n))).

(** The exponent part, if one follows: [e] or [E], an optional sign and
    at least one digit. *)
Definition readExponent (s : string) : Z :=
  match s with
  | String c r =>
      if (Ascii.eqb c "e" || Ascii.eqb c "E")%bool then
        let '(neg, r1) := readSign r in
        let '(e, n, _) := readDigits r1 0 0 in
        match n with
        | O => 0
        | S _ => if neg then - e else e
        end
      else 0
  | EmptyString => 0
  end.

(** [parseFloat]: leading white space, then the longest prefix that is a
    decimal literal; [NaN] when there is none. *)
Definition parse (str : string) : option Q :=
  let '(neg, s1) := readSign (JsString.trimStart str) in
  let '(ip, ni, s2) := readDigits s1 0 0 in
  let '(m, nf, s3) :=
    match s2 with
    | String "." r => readDigits r ip 0
    | _ => (ip, O, s2)
    end in
  match (ni + nf)%nat with
  | O => None
  | S _ =>
      let v := (inject_Z m * pow10 (readExponent s3 - Z.of_nat nf))%Q in
      Some (if neg then Qopp v else v)
  end.

Definition twoDigits (n : Z) : string :=
  if (n <? 10)%Z then "0" +:+ pretty n else pretty n.

(** [toFixed(2)]: the nearest multiple of 0.01, the larger one on a tie,
    on the absolute value. *)
Definition fixed2 (x : option Q) : string :=
  match x with
  | None => "NaN"
  | Some q =>
      let a := Qabs q in
      let n := Qfloor (a * inject_Z 100 + (1 # 2))%Q in
      (if Qle_bool 0 q then "" else "-")
        +:+ pretty (n / 100)%Z +:+ "." +:+ twoDigits (n mod 100)%Z
  end.

Definition lift2 (f : Q -> Q -> Q) (a b : option Q) : option Q :=
  match a, b with
  | Some x, Some y => Some (f x y)
  | _, _ => None
  end.

Definition div (a b : option Q) : option Q :=
  match a, b with
  | Some x, Some y => if Qeq_bool y 0 then None else Some (x / y)%Q
  | _, _ => None
  end.

Definition gtb (a b : option Q) : bool :=
  match a, b with
  | Some x, Some y => negb (Qle_bool x y)
  | _, _ => false
  end.

Lemma add_zero (x : option Q) : lift2 Qplus x (Some (inject_Z 0)) = x.
Proof.
  destruct x as [[n d]|]; [|reflexivity].
  unfold lift2, Qplus, inject_Z; cbn [Qnum Qden].
  rewrite Z.mul_1_r, Pos.mul_1_r, Z.mul_0_l, Z.add_0_r. reflexivity.
Qed.

End Exact.

#[export] Instance exactNumber : JsNumber (option Q) := {|
  ofZ := fun z => Some (inject_Z z);
  parseFloat := Exact.parse;
  toFixed2 := Exact.fixed2;
  nadd := Exact.lift2 Qplus;
  nsub := Exact.lift2 Qminus;
  nmul := Exact.lift2 Qmult;
  ndiv := Exact.div;
  ngtb := Exact.gtb;
  nadd_zero := Exact.add_zero
|}.

(** For running the component on ASCII text. *)
#[export] Instance asciiText : JsText := {|
  toUpperCase := JsString.asciiUpperCase;
  toUpperCase_ascii := fun s _ => eq_refl
|}.

(** ** Sample data *)

Module Sample.

Definition tee : Product.t :=
  Product.mk "p1" "Classic Tee" "A plain cotton tee" "20.00" "tshirts"
    ["white"; "black"] ["S"; "M"] None.

Definition shopper : World :=
  {| user := Some {| userId := "u1" |};
     canvasRef := Some {| canvasWidth := 320; canvasHeight := 384;
                          context2d := true;
                          toDataURL := "data:image/png;base64,AAAA" |} |}.

Definition visitor : World :=
  {| user := None; canvasRef := canvasRef shopper |}.

(** After the product list has loaded: the first product is selected with
    its first color and size. *)
Definition loaded : State :=
  setSelectedSize (Some "S")
    (setSelectedColor (Some "white")
       (setSelectedProduct (Some tee)
          (mkState [tee] None [] ToolText (Some "white") (Some "M") ""
             "#000000" (Some 24) "Arial" 1 false None ∅ false))).

(** One text element "Hi" added at clock reading 1000. *)
Definition withText : State := applyOp loaded (OpAddText 1000 "Hi").

(** The same design once a save has returned the identifier ["d1"]. *)
Definition saved : State := final (saveDesign shopper (FetchOk "d1") withText).

(** A circle added after that save. *)
Definition editedAfterSave : State := applyOp saved (OpAddShape 2000 circle).

End Sample.

(** ** Loading the catalogue and the mockups *)

Definition setProducts (ps : list Product.t) (s : State) : State :=
  mkState ps (selectedProduct s) (elements s) (selectedTool s)
    (selectedColor s) (selectedSize s) (textInput s) (textColor s)
    (fontSize s) (fontFamily s) (quantity s) (isLoading s) (savedDesignId s)
    (tshirtImages s) (imagesLoaded s).

Definition setTshirtImages (m : gmap string Image) (s : State) : State :=
  mkState (products s) (selectedProduct s) (elements s) (selectedTool s)
    (selectedColor s) (selectedSize s) (textInput s) (textColor s)
    (fontSize s) (fontFamily s) (quantity s) (isLoading s) (savedDesignId s)
    m (imagesLoaded s).

Definition setImagesLoaded (b : bool) (s : State) : State :=
  mkState (products s) (selectedProduct s) (elements s) (selectedTool s)
    (selectedColor s) (selectedSize s) (textInput s) (textColor s)
    (fontSize s) (fontFamily s) (quantity s) (isLoading s) (savedDesignId s)
    (tshirtImages s) b.

(** How the awaited [fetch('/api/products')] and [response.json()] turn
    out: a response whose body is an array of products, with a status that
    is [ok] or one that is not, or a rejection of either promise (no
    answer, or a body that is not JSON). A body that is JSON but not an
    array of products is outside the model: the [products] cell holds
    arrays only. *)
Inductive ProductsOutcome : Type :=
| ProductsLoaded (data : list Product.t)
| ProductsNotOk (data : list Product.t)
| ProductsFailed.

Definition productsFailure : list Effect :=
  [ConsoleError "Failed to fetch products:";
   ToastError "Failed to load products"].

(** What [fetchProducts] does with the parsed body. *)
Definition receiveProducts (data : list Product.t) (s : State) : Run unit :=
  let s1 := setProducts data s in
  if (0 <? length data)%nat then
    match data !! 0%nat with
    | Some first =>
        mkRun tt
          (setSelectedSize (Product.sizes first !! 0%nat)
             (setSelectedColor (Product.colors first !! 0%nat)
                (setSelectedProduct (Some first) s1)))
          []
    | None => mkRun tt s1 productsFailure
    end
  else mkRun tt s1 [].

(** [fetchProducts]. It reads no state: it only calls setters, so it acts
    on whatever the state is when the response arrives. It does not look
    at [response.ok]. *)
Definition fetchProducts (resp : ProductsOutcome) (s : State) : Run unit :=
  match resp with
  | ProductsLoaded data => receiveProducts data s
  | ProductsNotOk data => receiveProducts data s
  | ProductsFailed => mkRun tt s productsFailure
  end.

(** The colors [loadTshirtImages] requests a mockup for. *)
Definition mockupColors : list string :=
  ["white"; "black"; "navy"; "red"; "natural"].

Definition imageFileName (color : string) : string :=
  if String.eqb color "white" then "White_t-shirt_mockup_a7316e72.png"
  else if String.eqb color "black" then "Black_t-shirt_mockup_7b5db8b3.png"
  else if String.eqb color "navy" then "Navy_t-shirt_mockup_dd640fd4.png"
  else "White_t-shirt_mockup_a7316e72.png".

Definition imageSrc (color : string) : string :=
  "/images/products/" +:+ imageFileName color.

(** The [onload] or [onerror] callback of the image requested for a
    color. *)
Inductive ImageEvent : Type :=
| ImageLoaded (color : string) (img : Image)
| ImageFailed (color : string).

Definition eventColor (e : ImageEvent) : string :=
  match e with ImageLoaded c _ => c | ImageFailed c => c end.

(** One callback acting on the shared [imageMap]. A failed color other
    than white takes the white image if that one is in the map already. *)
Definition onImageEvent (imageMap : gmap string Image) (e : ImageEvent)
  : gmap string Image :=
  match e with
  | ImageLoaded color img => <[color := img]> imageMap
  | ImageFailed color =>
      if negb (String.eqb color "white") then
        match imageMap !! "white" with
        | Some white => <[color := white]> imageMap
        | None => imageMap
        end
      else imageMap
  end.

Definition buildImageMap (events : list ImageEvent) : gmap string Image :=
  fold_left onImageEvent events ∅.

(** Each of the five colors has fired its callback, once: [Promise.all]
    resolves. *)
Definition allSettled (events : list ImageEvent) : bool :=
  bool_decide (eventColor <$> events ≡ₚ mockupColors).

(** [loadTshirtImages], given the callbacks that have fired, in the order
    they fired. The map and the flag are stored once all five have fired;
    until then the state is as it was. *)
Definition loadTshirtImages (events : list ImageEvent) (s : State) : State :=
  if allSettled events
  then setImagesLoaded true (setTshirtImages (buildImageMap events) s)
  else s.

(** ** What the action buttons show *)

(** [disabled] of the save, share and add-to-cart buttons. *)
Definition actionsDisabled (s : State) : bool :=
  isLoading s || negb (bool_decide (is_Some (selectedProduct s))).

Definition saveButtonLabel (s : State) : string :=
  if isLoading s then "Saving..."
  else if truthyId (savedDesignId s) then "Design Saved"
  else "Save Design".

(** The "Design Fee" row of the product panel is rendered. *)
Definition designFeeShown (s : State) : bool :=
  bool_decide (is_Some (selectedProduct s)) && (0 <? length (elements s))%nat.

(** ** The saved designs page *)

(** A design as the designs page receives it from [GET /api/designs]. *)
Module Design.
Record t : Type := mk {
  id : string;
  name : string;
  designData : DesignData.t;
  thumbnail : option string;
  createdAt : string
}.
End Design.

(** The cart item the designs page submits; unlike the canvas it names the
    user. *)
Module DesignCartItem.
Record t : Type := mk {
  userId : string;
  productId : string;
  designId : string;
  quantity : Z;
  size : option string;
  color : option string;
  customPrice : string
}.
End DesignCartItem.

Inductive PageEffect : Type :=
| PageToastError (msg : string)
| PageToastSuccess (msg : string)
| PageConsoleError (label : string)
| PageAddToCart (item : DesignCartItem.t).

Section Session.

Context {num : Type} {JN : JsNumber num}.

(** The label of the add-to-cart button. *)
Definition cartButtonLabel (s : State) : string :=
  if isLoading s then "Adding..."
  else "Add to Cart - $" +:+
       match selectedProduct s with
       | Some p => toFixed2 (unitPrice p (elements s))
       | None => "0.00"
       end.

(** [addDesignToCart] of the designs page. *)
Definition addDesignToCart (u : option User) (cartResp : MutationOutcome)
    (design : Design.t) : list PageEffect :=
  match u with
  | None => [PageToastError "Please login to add items to cart"]
  | Some usr =>
      let customPrice :=
        toFixed2
          (nadd (parseFloat
                   (Product.basePrice
                      (DesignData.product (Design.designData design))))
                (ofZ 5)) in
      let cartItemData :=
        DesignCartItem.mk (userId usr)
          (Product.id (DesignData.product (Design.designData design)))
          (Design.id design) 1
          (DesignData.size (Design.designData design))
          (DesignData.color (Design.designData design))
          customPrice in
      PageAddToCart cartItemData ::
      match cartResp with
      | MutationResolved => [PageToastSuccess "Design added to cart!"]
      | MutationRejected =>
          [PageConsoleError "Add to cart error:";
           PageToastError "Failed to add to cart"]
      end
  end.

(** ** Sessions

    Everything that can happen to the component after it is mounted: what
    the shopper does with the widgets, the two responses of the mount
    effect arriving, and clicks on the save and add-to-cart buttons; each
    click comes with the world it happens in and the outcomes of the calls
    it awaits. A handler runs to its end before the next action. *)
Inductive Action : Type :=
| Ui (o : SessionOp)
| ProductsArrive (resp : ProductsOutcome)
| ImagesArrive (events : list ImageEvent)
| ClickSave (w : World) (resp : FetchOutcome)
| ClickAddToCart (w : World) (saveResp : FetchOutcome)
    (cartResp : MutationOutcome).

Definition act (s : State) (a : Action) : Run unit :=
  match a with
  | Ui o => mkRun tt (sessionStep s o) []
  | ProductsArrive resp => fetchProducts resp s
  | ImagesArrive events => mkRun tt (loadTshirtImages events s) []
  | ClickSave w resp =>
      mkRun tt (final (saveDesign w resp s)) (trace (saveDesign w resp s))
  | ClickAddToCart w saveResp cartResp =>
      addToCartWithDesign w saveResp cartResp s
  end.

Fixpoint session (s : State) (actions : list Action) : Run unit :=
  match actions with
  | [] => mkRun tt s []
  | a :: rest =>
      mkRun tt (final (session (final (act s a)) rest))
        (trace (act s a) ++ trace (session (final (act s a)) rest))
  end.

(** The identifiers the design-creation responses of a session carry. *)
Definition createdIds (actions : list Action) : list string :=
  omap (fun a => match a with
                 | ClickSave _ (FetchOk id) => Some id
                 | ClickAddToCart _ (FetchOk id) _ => Some id
                 | _ => None
                 end) actions.

(** What the widgets and a sound catalogue allow: a color or size is
    picked among the items offered, and every product that arrives
    declares at least one color and one size. *)
Definition declaresOptions (p : Product.t) : bool :=
  negb (bool_decide (Product.colors p = []))
  && negb (bool_decide (Product.sizes p = [])).

Definition offered (s : State) (a : Action) : bool :=
  match a with
  | Ui (PickColor v) => bool_decide (v ∈ colorOptions s)
  | Ui (PickSize v) => bool_decide (v ∈ sizeOptions s)
  | ProductsArrive (ProductsLoaded data) => forallb declaresOptions data
  | ProductsArrive (ProductsNotOk data) => forallb declaresOptions data
  | _ => true
  end.

Fixpoint allOffered (s : State) (actions : list Action) : bool :=
  match actions with
  | [] => true
  | a :: rest => offered s a && allOffered (final (act s a)) rest
  end.

End Session.

(** The selected color and size are among those the selected product
    declares. *)
Definition selectionValid (s : State) : Prop :=
  match selectedProduct s with
  | Some p =>
      (exists c, selectedColor s = Some c /\ c ∈ Product.colors p)
      /\ (exists z, selectedSize s = Some z /\ z ∈ Product.sizes p)
  | None => True
  end.

(** What holds of the state between two actions: the quantity is at least
    one, nothing is loading, and a recorded design identifier comes with a
    selected product and a design that has elements. *)
Definition atRest (s : State) : Prop :=
  1 <= quantity s
  /\ isLoading s = false
  /\ (truthyId (savedDesignId s) = true ->
      elements s <> [] /\ is_Some (selectedProduct s)).

(** Two states hold the same design and selection: they may differ in
    the loading flag and the recorded design identifier only. *)
Definition sameDesign (s s' : State) : Prop :=
  products s' = products s
  /\ selectedProduct s' = selectedProduct s
  /\ elements s' = elements s
  /\ selectedColor s' = selectedColor s
  /\ selectedSize s' = selectedSize s
  /\ quantity s' = quantity s
  /\ textInput s' = textInput s
  /\ tshirtImages s' = tshirtImages s
  /\ imagesLoaded s' = imagesLoaded s.

(** The selection is valid and every product of the list declares colors
    and sizes. *)
Definition soundSelection (s : State) : Prop :=
  selectionValid s /\ forallb declaresOptions (products s) = true.

(** The studio once the catalogue and a white mockup of 800 by 1000 pixels
    have arrived. *)
Module Studio.

Definition whiteMockup : Image := {| imgWidth := 800; imgHeight := 1000 |}.

Definition ready : State :=
  loadTshirtImages
    [ImageLoaded "white" whiteMockup; ImageFailed "black";
     ImageLoaded "navy" {| imgWidth := 640; imgHeight := 640 |};
     ImageFailed "red"; ImageFailed "natural"]
    (final (fetchProducts (ProductsLoaded [Sample.tee]) initialState)).

Definition canvas : Canvas :=
  {| canvasWidth := 320; canvasHeight := 384; context2d := true;
     toDataURL := "data:image/png;base64,AAAA" |}.


End Studio.

(** Modelled from the spec: the design persistence collaborator, which is
    not part of the sources, keeps the posted name, payload and thumbnail
    unchanged under the identifier it answers with, and hands them back to
    the designs page. *)
Definition storedDesign (id createdAt : string) (body : DesignBody.t)
  : Design.t :=
  Design.mk id (DesignBody.name body) (DesignBody.designData body)
    (DesignBody.thumbnail body) createdAt.

(** The creation request a save sends for a product from a state. *)
Definition designBody (w : World) (p : Product.t) (s : State) : DesignBody.t :=
  DesignBody.mk (Product.name p +:+ " Design")
    (DesignData.mk p (elements s) (selectedColor s) (selectedSize s))
    (toDataURL <$> canvasRef w).

(** The background throws for a color: the mockups are loaded and the
    color names a member the mockup object inherits. *)
Definition namesInheritedMember (s : State) (c : string) : bool :=
  imagesLoaded s
  && match getMember (tshirtImages s) c with
     | InheritedMember => true
     | _ => false
     end.

(** * Properties *)

Local Open Scope list_scope.

(** ** Strings *)

Module JsStringFacts.
Import JsString.

Lemma isWhiteSpace_listed (cp : N) :
  isWhiteSpace cp = true <-> cp ∈ whiteSpaceCodePoints.
Proof.
  unfold isWhiteSpace, whiteSpaceCodePoints. split.
  - intros H.
    repeat (apply orb_true_iff in H as [H|H]);
      repeat match goal with
        | H : _ && _ = true |- _ => apply andb_true_iff in H as [? ?]
        | H : (_ <=? _)%N = true |- _ => apply N.leb_le in H
        | H : (_ =? _)%N = true |- _ => apply N.eqb_eq in H
        end; subst; try set_solver.
    + assert (Hc : (cp = 9 \/ cp = 10 \/ cp = 11 \/ cp = 12 \/ cp = 13)%N) by lia.
      destruct Hc as [->|[->|[->|[->| ->]]]]; set_solver.
    + assert (Hc : (cp = 8192 \/ cp = 8193 \/ cp = 8194 \/ cp = 8195
                    \/ cp = 8196 \/ cp = 8197 \/ cp = 8198 \/ cp = 8199
                    \/ cp = 8200 \/ cp = 8201 \/ cp = 8202)%N) by lia.
      repeat destruct Hc as [->|Hc]; try subst; set_solver.
  - intros H. repeat (apply elem_of_cons in H as [->|H]; [reflexivity|]).
    now apply elem_of_nil in H.
Qed.

Lemma trimStart_utf8 (cp : N) (s : string) :
  cp ∈ whiteSpaceCodePoints -> trimStart (utf8 cp +:+ s) = trimStart s.
Proof.
  unfold whiteSpaceCodePoints. intros H.
  repeat (apply elem_of_cons in H as [->|H]; [reflexivity|]).
  now apply elem_of_nil in H.
Qed.

Lemma Blank_trimStart (s : string) : Blank s -> trimStart s = "".
Proof.
  induction 1 as [|cp s Hcp _ IH]; [reflexivity|].
  now rewrite trimStart_utf8.
Qed.

Lemma scalar1_utf8 (a : ascii) (cp : N) (r : string) :
  scalar1 a = Some cp -> String a r = utf8 cp +:+ r.
Proof.
  unfold scalar1, utf8.
  destruct (N_of_ascii a <? 128)%N eqn:Ha; [|discriminate].
  intros [= <-]. rewrite Ha. cbn. now rewrite ascii_N_embedding.
Qed.

Lemma N_of_ascii_bound (a : ascii) : (N_of_ascii a < 256)%N.
Proof. apply N_ascii_bounded. Qed.

Lemma scalar2_utf8 (a b : ascii) (cp : N) (r : string) :
  scalar2 a b = Some cp -> String a (String b r) = utf8 cp +:+ r.
Proof.
  unfold scalar2, continuation, utf8.
  destruct (_ && _) eqn:H; [|discriminate]. intros [= <-].
  repeat match goal with
    | H : _ && _ = true |- _ => apply andb_true_iff in H as [? ?]
    | H : (_ <=? _)%N = true |- _ => apply N.leb_le in H
    | H : (_ <? _)%N = true |- _ => apply N.ltb_lt in H
    end.
  set (x := N_of_ascii a) in *. set (y := N_of_ascii b) in *.
  assert (Hq : (((x - 192) * 64 + (y - 128)) / 64 = x - 192)%N).
  { rewrite N.div_add_l by lia. rewrite N.div_small by lia. lia. }
  assert (Hm : (((x - 192) * 64 + (y - 128)) mod 64 = y - 128)%N).
  { rewrite N.Div0.add_mod, N.Div0.mod_mul, N.add_0_l, N.Div0.mod_mod.
    apply N.mod_small. lia. }
  destruct (_ <? 128)%N eqn:E1; [apply N.ltb_lt in E1; lia|].
  destruct (_ <? 2048)%N eqn:E2; [|apply N.ltb_ge in E2; lia].
  rewrite Hq, Hm. cbn.
  replace (192 + (x - 192))%N with x by lia.
  replace (128 + (y - 128))%N with y by lia.
  subst x y. now rewrite !ascii_N_embedding.
Qed.

Lemma scalar3_utf8 (a b c : ascii) (cp : N) (r : string) :
  scalar3 a b c = Some cp -> String a (String b (String c r)) = utf8 cp +:+ r.
Proof.
  unfold scalar3, continuation, utf8.
  destruct (_ && _) eqn:H; [|discriminate]. intros [= <-].
  repeat match goal with
    | H : _ && _ = true |- _ => apply andb_true_iff in H as [? ?]
    | H : (_ <=? _)%N = true |- _ => apply N.leb_le in H
    | H : (_ <? _)%N = true |- _ => apply N.ltb_lt in H
    end.
  set (x := N_of_ascii a) in *. set (y := N_of_ascii b) in *.
  set (z := N_of_ascii c) in *.
  set (cp := ((x - 224) * 4096 + (y - 128) * 64 + (z - 128))%N) in *.
  assert (Hq1 : (cp / 64 = (x - 224) * 64 + (y - 128))%N).
  { subst cp.
    replace ((x - 224) * 4096 + (y - 128) * 64 + (z - 128))%N
      with (((x - 224) * 64 + (y - 128)) * 64 + (z - 128))%N by lia.
    rewrite N.div_add_l by lia. rewrite N.div_small by lia. lia. }
  assert (Hm : (cp mod 64 = z - 128)%N).
  { subst cp.
    replace ((x - 224) * 4096 + (y - 128) * 64 + (z - 128))%N
      with (((x - 224) * 64 + (y - 128)) * 64 + (z - 128))%N by lia.
    rewrite N.Div0.add_mod, N.Div0.mod_mul, N.add_0_l, N.Div0.mod_mod.
    apply N.mod_small. lia. }
  assert (Hq2 : (cp / 4096 = x - 224)%N).
  { replace 4096%N with (64 * 64)%N by reflexivity.
    rewrite <- N.Div0.div_div, Hq1.
    rewrite N.div_add_l by lia. rewrite N.div_small by lia. lia. }
  assert (Hm2 : ((cp / 64) mod 64 = y - 128)%N).
  { rewrite Hq1, N.Div0.add_mod, N.Div0.mod_mul, N.add_0_l, N.Div0.mod_mod.
    apply N.mod_small. lia. }
  destruct (cp <? 128)%N eqn:E1; [apply N.ltb_lt in E1; lia|].
  destruct (cp <? 2048)%N eqn:E2; [apply N.ltb_lt in E2; lia|].
  rewrite Hq2, Hm2, Hm. cbn.
  replace (224 + (x - 224))%N with x by lia.
  replace (128 + (y - 128))%N with y by lia.
  replace (128 + (z - 128))%N with z by lia.
  subst x y z. now rewrite !ascii_N_embedding.
Qed.

Lemma white_listed (o : option N) :
  white o = true -> exists cp, o = Some cp /\ cp ∈ whiteSpaceCodePoints.
Proof.
  destruct o as [cp|]; [|discriminate]. cbn. intros H%isWhiteSpace_listed.
  eauto.
Qed.

(** One step of [trimStart]: it stops, or it drops one white space. *)
Lemma trimStart_step (s : string) :
  trimStart s = s
  \/ exists cp r,
       cp ∈ whiteSpaceCodePoints /\ s = utf8 cp +:+ r
       /\ trimStart s = trimStart r
       /\ (String.length r < String.length s)%nat.
Proof.
  destruct s as [|a r1]; [now left|]. cbn [trimStart].
  destruct (white (scalar1 a)) eqn:H1.
  { right. apply white_listed in H1 as (cp & Hcp & Hin).
    exists cp, r1. repeat split; auto using scalar1_utf8; cbn; lia. }
  destruct r1 as [|b r2]; [now left|].
  destruct (white (scalar2 a b)) eqn:H2.
  { right. apply white_listed in H2 as (cp & Hcp & Hin).
    exists cp, r2. repeat split; auto using scalar2_utf8; cbn; lia. }
  destruct r2 as [|c r3]; [now left|].
  destruct (white (scalar3 a b c)) eqn:H3; [|now left].
  right. apply white_listed in H3 as (cp & Hcp & Hin).
  exists cp, r3. repeat split; auto using scalar3_utf8; cbn; lia.
Qed.

Lemma string_length_ind (P : string -> Prop) :
  (forall s, (forall r, (String.length r < String.length s)%nat -> P r) -> P s) ->
  forall s, P s.
Proof.
  intros Hstep s. remember (String.length s) as n eqn:Hn.
  revert s Hn. induction n as [n IH] using lt_wf_ind. intros s ->.
  apply Hstep. intros r Hr. now apply (IH _ Hr).
Qed.

Lemma trimStart_empty_Blank (s : string) : trimStart s = "" -> Blank s.
Proof.
  induction s as [s IH] using string_length_ind. intros Hs.
  destruct (trimStart_step s) as [Hstop|(cp & r & Hcp & -> & Hgo & Hlt)].
  - rewrite Hstop in Hs. subst. constructor.
  - constructor; [exact Hcp|]. apply IH; [exact Hlt|]. now rewrite <- Hgo.
Qed.

Lemma trimStart_idempotent (s : string) :
  trimStart (trimStart s) = trimStart s.
Proof.
  induction s as [s IH] using string_length_ind.
  destruct (trimStart_step s) as [Hstop|(cp & r & Hcp & -> & Hgo & Hlt)].
  - now rewrite !Hstop.
  - rewrite Hgo. now apply IH.
Qed.

(** One step of [trimStartReversed], read on the string it reverses. *)
Lemma trimStartReversed_step (t : string) :
  trimStartReversed t = t
  \/ exists cp r,
       cp ∈ whiteSpaceCodePoints
       /\ (forall acc,
             String.rev_app t acc = String.rev_app r (utf8 cp +:+ acc))
       /\ trimStartReversed t = trimStartReversed r
       /\ (String.length r < String.length t)%nat.
Proof.
  destruct t as [|c r1]; [now left|]. cbn [trimStartReversed].
  destruct (white (scalar1 c)) eqn:H1.
  { right. apply white_listed in H1 as (cp & Hcp & Hin).
    exists cp, r1. split; [exact Hin|].
    split; [intros acc; cbn; now rewrite (scalar1_utf8 c cp acc Hcp)|].
    split; [reflexivity|cbn; lia]. }
  destruct r1 as [|b r2]; [now left|].
  destruct (white (scalar2 b c)) eqn:H2.
  { right. apply white_listed in H2 as (cp & Hcp & Hin).
    exists cp, r2. split; [exact Hin|].
    split; [intros acc; cbn; now rewrite (scalar2_utf8 b c cp acc Hcp)|].
    split; [reflexivity|cbn; lia]. }
  destruct r2 as [|a r3]; [now left|].
  destruct (white (scalar3 a b c)) eqn:H3; [|now left].
  right. apply white_listed in H3 as (cp & Hcp & Hin).
  exists cp, r3. split; [exact Hin|].
    split; [intros acc; cbn; now rewrite (scalar3_utf8 a b c cp acc Hcp)|].
    split; [reflexivity|cbn; lia].
Qed.

Lemma trimStartReversed_empty_Blank (t acc : string) :
  trimStartReversed t = "" -> Blank acc -> Blank (String.rev_app t acc).
Proof.
  revert acc. induction t as [t IH] using string_length_ind. intros acc Ht Hacc.
  destruct (trimStartReversed_step t) as [Hstop|(cp & r & Hcp & Hrev & Hgo & Hlt)].
  - rewrite Hstop in Ht. now subst.
  - rewrite Hrev. apply IH; [exact Hlt|now rewrite <- Hgo|].
    now constructor.
Qed.

Lemma rev_app_rev_app (s a b : string) :
  String.rev_app (String.rev_app s a) b = String.rev_app a (s +:+ b).
Proof.
  revert a. induction s as [|c s IH]; intros a; [reflexivity|].
  cbn. now rewrite IH.
Qed.

Lemma append_empty (s : string) : s +:+ "" = s.
Proof.
  induction s as [|c s IH]; [reflexivity|].
  change (String c (s +:+ "") = String c s). now rewrite IH.
Qed.

Lemma rev_involutive (s : string) : String.rev (String.rev s) = s.
Proof.
  unfold String.rev. rewrite rev_app_rev_app. cbn. apply append_empty.
Qed.

Lemma rev_empty (s : string) : String.rev s = "" -> s = "".
Proof. intros H. rewrite <- (rev_involutive s), H. reflexivity. Qed.

(** [trim] gives the empty string exactly on the strings made of white
    space only. *)
Lemma trim_empty (s : string) : trim s = "" <-> Blank s.
Proof.
  unfold trim, trimEnd. split.
  - intros H%rev_empty.
    apply (trimStartReversed_empty_Blank _ "") in H; [|constructor].
    fold (String.rev (String.rev (trimStart s))) in H.
    rewrite rev_involutive in H.
    apply Blank_trimStart in H. rewrite trimStart_idempotent in H.
    now apply trimStart_empty_Blank.
  - intros H%Blank_trimStart. now rewrite H.
Qed.

Lemma trim_truthy (s : string) : truthy (trim s) = false <-> Blank s.
Proof.
  rewrite <- trim_empty. destruct (trim s); cbn; split; congruence.
Qed.

Example trim_padded :
  trim (utf8 12288 +:+ " Hi" +:+ utf8 160 +:+ utf8 65279) = "Hi".
Proof. reflexivity. Qed.

Example trim_inner : trim ("a" +:+ utf8 8232 +:+ "b ") = "a" +:+ utf8 8232 +:+ "b".
Proof. reflexivity. Qed.

#[export] Instance ofInteger_inj : Inj (=) (=) ofInteger.
Proof. unfold ofInteger. apply _. Qed.

End JsStringFacts.

(** ** Pricing *)

(** C1. With a product selected, the derived unit price is the product's
    base price when there is no element and the base price plus 5 when
    there is at least one, however many; the derived total price is the
    unit price times the quantity. *)
Theorem C1_derived_prices {num : Type} {JN : JsNumber num}
    (s : State) (p : Product.t) :
  selectedProduct s = Some p ->
  derivedUnitPrice s =
    Some (match elements s with
          | [] => parseFloat (Product.basePrice p)
          | _ :: _ => nadd (parseFloat (Product.basePrice p)) (ofZ 5)
          end)
  /\ derivedTotalPrice s =
       (fun u => nmul u (ofZ (quantity s))) <$> derivedUnitPrice s.
Proof.
  intros Hp. unfold derivedTotalPrice, derivedUnitPrice, totalPrice, unitPrice.
  rewrite Hp. cbn. split; [|reflexivity].
  destruct (elements s); cbn; [|reflexivity].
  now rewrite nadd_zero.
Qed.

Lemma C1_derived_prices_witness :
  selectedProduct (setQuantity 3 Sample.withText) = Some Sample.tee
  /\ unitPriceText (setQuantity 3 Sample.withText) = Some "25.00"
  /\ totalPriceText (setQuantity 3 Sample.withText) = Some "75.00"
  /\ unitPriceText Sample.loaded = Some "20.00".
Proof.
  pose proof (C1_derived_prices (num := option Q)
                (setQuantity 3 Sample.withText) Sample.tee eq_refl) as [Hu Ht].
  pose proof (C1_derived_prices (num := option Q)
                Sample.loaded Sample.tee eq_refl) as [Hu0 _].
  split; [reflexivity|].
  unfold totalPriceText, unitPriceText.
  rewrite Ht, Hu, Hu0. vm_compute. auto.
Defined.

(** ** Selection *)

(** C2, counterexample. The sample product declares the colors white and
    black and the sizes S and M; selecting the color purple or the size XXL
    is accepted and replaces the previous selection. *)
Lemma C2_undeclared_color_is_stored :
  selectedProduct Sample.loaded = Some Sample.tee
  /\ ~ In "purple" (Product.colors Sample.tee)
  /\ ~ In "XXL" (Product.sizes Sample.tee)
  /\ selectedColor (onColorChange "purple" Sample.loaded) = Some "purple"
  /\ selectedColor (onColorChange "purple" Sample.loaded)
       <> selectedColor Sample.loaded
  /\ selectedSize (onSizeChange "XXL" Sample.loaded) = Some "XXL"
  /\ selectedSize (onSizeChange "XXL" Sample.loaded)
       <> selectedSize Sample.loaded.
Proof.
  repeat split; try reflexivity; cbn; try discriminate;
    intros H; repeat destruct H as [H|H]; try discriminate H; exact H.
Qed.

(** C2, amended. Selecting a color or a size never fails: the value given,
    declared by the product or not, is stored verbatim in place of the
    previous selection, and the rest of the state is untouched. *)
Theorem C2_selection_stored_verbatim (s : State) (v : string) :
  onColorChange v s = setSelectedColor (Some v) s
  /\ selectedColor (onColorChange v s) = Some v
  /\ selectedSize (onColorChange v s) = selectedSize s
  /\ selectedProduct (onColorChange v s) = selectedProduct s
  /\ elements (onColorChange v s) = elements s
  /\ quantity (onColorChange v s) = quantity s
  /\ selectedSize (onSizeChange v s) = Some v
  /\ selectedColor (onSizeChange v s) = selectedColor s
  /\ selectedProduct (onSizeChange v s) = selectedProduct s
  /\ elements (onSizeChange v s) = elements s
  /\ quantity (onSizeChange v s) = quantity s.
Proof. repeat split. Qed.

(** What keeps undeclared values out is the widgets: they offer the colors
    and sizes the selected product declares, and nothing without one. *)
Lemma offered_values_are_declared (s : State) (v : string) :
  (v ∈ colorOptions s ->
   exists p, selectedProduct s = Some p /\ v ∈ Product.colors p)
  /\ (v ∈ sizeOptions s ->
      exists p, selectedProduct s = Some p /\ v ∈ Product.sizes p).
Proof.
  unfold colorOptions, sizeOptions.
  destruct (selectedProduct s) as [p|]; split; intros Hv; eauto;
    now apply elem_of_nil in Hv.
Qed.

(** C8. Picking in the product list a product with at least one color and
    one size makes it the selected product, selects its first color and its
    first size, and keeps the elements of the design. *)
Theorem C8_product_switch (s : State) (value : string) (p : Product.t)
    (c z : string) (cs zs : list string) :
  List.find (fun q => String.eqb (Product.id q) value) (products s) = Some p ->
  Product.colors p = c :: cs ->
  Product.sizes p = z :: zs ->
  selectedProduct (onProductChange value s) = Some p
  /\ selectedColor (onProductChange value s) = Some c
  /\ selectedSize (onProductChange value s) = Some z
  /\ elements (onProductChange value s) = elements s.
Proof.
  intros Hfind Hc Hz. unfold onProductChange. rewrite Hfind. cbn.
  rewrite Hc, Hz. repeat split.
Qed.

Lemma C8_product_switch_witness :
  selectedProduct (onProductChange "p1" Sample.editedAfterSave)
    = Some Sample.tee
  /\ selectedColor (onProductChange "p1" Sample.editedAfterSave)
    = Some "white"
  /\ selectedSize (onProductChange "p1" Sample.editedAfterSave) = Some "S"
  /\ elements (onProductChange "p1" Sample.editedAfterSave)
    = elements Sample.editedAfterSave.
Proof.
  apply (C8_product_switch Sample.editedAfterSave "p1" Sample.tee
           "white" "S" ["black"] ["M"]); reflexivity.
Defined.

(** ** Elements *)

Example addText_blank :
  addText 1000 (setTextInput "  " Sample.loaded) = setTextInput "  " Sample.loaded.
Proof. reflexivity. Qed.

Example addText_padded :
  DesignElement.content <$>
    elements (addText 1000 (setTextInput " Hi " Sample.loaded)) = [" Hi "].
Proof. reflexivity. Qed.

(** C7. Adding a text that is empty or made of white space only changes
    nothing; adding any other text appends exactly one text element,
    anchored at (160, 200), after the elements already there. *)
Theorem C7_add_text (now : Z) (s : State) :
  (JsString.Blank (textInput s) -> addText now s = s)
  /\ (~ JsString.Blank (textInput s) ->
      elements (addText now s) =
        elements s ++
        [DesignElement.mk (JsString.ofInteger now) text (textInput s)
           160 200 100 30 (textColor s) (fontSize s) (Some (fontFamily s))]).
Proof.
  unfold addText.
  destruct (JsString.truthy (JsString.trim (textInput s))) eqn:Htrim; cbn.
  - split; [|reflexivity].
    intros Hblank%JsStringFacts.trim_truthy. congruence.
  - apply JsStringFacts.trim_truthy in Htrim. split; [reflexivity|].
    intros Hink. contradiction.
Qed.

Lemma C7_add_text_witness :
  addText 1000
    (setTextInput
       (JsString.utf8 12288 +:+ " " +:+ JsString.utf8 160
          +:+ JsString.utf8 9 +:+ JsString.utf8 65279)
       Sample.loaded)
  = setTextInput
      (JsString.utf8 12288 +:+ " " +:+ JsString.utf8 160
         +:+ JsString.utf8 9 +:+ JsString.utf8 65279)
      Sample.loaded
  /\ elements
       (addText 1000 (setTextInput (" Hi" +:+ JsString.utf8 160) Sample.loaded))
     = [DesignElement.mk "1000" text (" Hi" +:+ JsString.utf8 160)
          160 200 100 30 "#000000" (Some 24) (Some "Arial")].
Proof.
  split.
  - apply (C7_add_text 1000).
    change (JsString.Blank
              (JsString.utf8 12288 +:+ JsString.utf8 32 +:+ JsString.utf8 160
                 +:+ JsString.utf8 9 +:+ JsString.utf8 65279 +:+ "")).
    repeat (constructor; [apply (bool_decide_unpack _); vm_compute; exact I|]).
    constructor.
  - apply (C7_add_text 1000
             (setTextInput (" Hi" +:+ JsString.utf8 160) Sample.loaded)).
    intros H%JsStringFacts.Blank_trimStart. vm_compute in H. discriminate H.
Defined.

(** Editing operations only ever append elements, and leave the selected
    product and the recorded design identifier alone. *)
Lemma applyOp_frame (s : State) (o : EditOp) :
  selectedProduct (applyOp s o) = selectedProduct s
  /\ savedDesignId (applyOp s o) = savedDesignId s.
Proof.
  destruct o as [t input|t k]; cbn; [|split; reflexivity].
  unfold addText. destruct (negb _); split; reflexivity.
Qed.

Lemma applyOps_cons (s : State) (o : EditOp) (ops : list EditOp) :
  applyOps s (o :: ops) = applyOps (applyOp s o) ops.
Proof. reflexivity. Qed.

(** No session operation clears the selected product or touches the
    recorded design identifier. *)
Lemma sessionStep_frame (s : State) (o : SessionOp) :
  (is_Some (selectedProduct s) -> is_Some (selectedProduct (sessionStep s o)))
  /\ savedDesignId (sessionStep s o) = savedDesignId s.
Proof.
  destruct o as [e|value| | | | | | | | | |]; cbn;
    try (split; [tauto|reflexivity]).
  - destruct (applyOp_frame s e) as [-> ->]. tauto.
  - unfold onProductChange. destruct (find _ _); cbn; eauto.
Qed.

Lemma sessionRun_frame (ops : list SessionOp) (s : State) :
  is_Some (selectedProduct s) ->
  is_Some (selectedProduct (sessionRun s ops))
  /\ savedDesignId (sessionRun s ops) = savedDesignId s.
Proof.
  revert s. induction ops as [|o ops IH]; intros s Hp; [split; [exact Hp|reflexivity]|].
  change (sessionRun s (o :: ops)) with (sessionRun (sessionStep s o) ops).
  destruct (sessionStep_frame s o) as [Hkeep Hid].
  destruct (IH (sessionStep s o) (Hkeep Hp)) as [Hp' ->]. auto.
Qed.

(** The identifiers an operation adds: at most one, the decimal text of
    its clock reading. *)
Lemma applyOp_ids (s : State) (o : EditOp) :
  exists added,
    DesignElement.id <$> elements (applyOp s o)
      = (DesignElement.id <$> elements s) ++ added
    /\ added `sublist_of` [JsString.ofInteger (opTime o)].
Proof.
  destruct o as [t input|t k]; cbn.
  - unfold addText. destruct (negb _); cbn.
    + exists []. rewrite app_nil_r. split; [reflexivity|apply sublist_nil_l].
    + exists [JsString.ofInteger t]. now rewrite fmap_app.
  - exists [JsString.ofInteger t]. now rewrite fmap_app.
Qed.

Lemma applyOps_ids (ops : list EditOp) (s : State) :
  exists added,
    DesignElement.id <$> elements (applyOps s ops)
      = (DesignElement.id <$> elements s) ++ added
    /\ added `sublist_of` (JsString.ofInteger <$> (opTime <$> ops)).
Proof.
  revert s. induction ops as [|o ops IH]; intros s.
  - exists []. cbn. now rewrite app_nil_r.
  - rewrite applyOps_cons, !fmap_cons.
    destruct (IH (applyOp s o)) as (later & -> & Hlater).
    destruct (applyOp_ids s o) as (now & -> & Hnow).
    exists (now ++ later). rewrite <- app_assoc. split; [reflexivity|].
    apply (sublist_app now [_] later _); assumption.
Qed.

(** C9, counterexample. Two shapes added at the same clock reading get the
    same identifier. *)
Lemma C9_same_millisecond_ids_collide :
  DesignElement.id <$>
    elements (applyOps initialState
                [OpAddShape 1000 rectangle; OpAddShape 1000 circle])
    = ["1000"; "1000"]
  /\ ~ NoDup (DesignElement.id <$>
                elements (applyOps initialState
                            [OpAddShape 1000 rectangle; OpAddShape 1000 circle])).
Proof.
  assert (H : DesignElement.id <$>
                elements (applyOps initialState
                            [OpAddShape 1000 rectangle; OpAddShape 1000 circle])
              = ["1000"; "1000"]) by (vm_compute; reflexivity).
  split; [exact H|]. rewrite H. intros Hnd.
  apply NoDup_cons in Hnd as [Hnotin _]. apply Hnotin. left.
Qed.

(** C9, amended. In a session that starts with no element, the element
    identifiers are pairwise distinct provided the add-text and add-shape
    operations read pairwise distinct clock values. *)
Theorem C9_ids_distinct_for_distinct_clock (s : State) (ops : list EditOp) :
  elements s = [] ->
  NoDup (opTime <$> ops) ->
  NoDup (DesignElement.id <$> elements (applyOps s ops)).
Proof.
  intros Hempty Hclock.
  destruct (applyOps_ids ops s) as (added & -> & Hsub).
  rewrite Hempty. cbn.
  eapply sublist_NoDup; [|exact Hsub].
  apply (NoDup_fmap_2 _), Hclock.
Qed.

Lemma C9_ids_distinct_for_distinct_clock_witness :
  NoDup (DesignElement.id <$>
           elements (applyOps initialState
                       [OpAddText 1000 "Hi"; OpAddText 1001 "  ";
                        OpAddShape 1002 circle])).
Proof.
  apply C9_ids_distinct_for_distinct_clock; [reflexivity|].
  apply (bool_decide_unpack _). vm_compute. exact I.
Defined.

(** ** Saving *)

(** C3, counterexample. Without a signed-in user, saving the empty initial
    design is rejected with the login notice, not the validation notice. *)
Lemma C3_unauthenticated_save_reports_login :
  selectedProduct initialState = None
  /\ elements initialState = []
  /\ trace (saveDesign Sample.visitor FetchNotOk initialState)
       = [ToastError "Please login to save designs"]
  /\ saveFailure (saveDesign Sample.visitor FetchNotOk initialState)
       = Some NotAuthenticated
  /\ saveFailure (saveDesign Sample.visitor FetchNotOk initialState)
       <> Some ValidationError.
Proof. repeat split; try reflexivity. cbn. discriminate. Qed.

(** C3, amended. When no product is selected or the design has no element,
    a save fails: with [ValidationError] for a signed-in user and with
    [NotAuthenticated] otherwise, the identity being checked first. It
    returns no identifier, sends no request, and leaves the whole state as
    it was. *)
Theorem C3_incomplete_save_rejected (w : World) (resp : FetchOutcome)
    (s : State) :
  selectedProduct s = None \/ elements s = [] ->
  result (saveDesign w resp s) = None
  /\ final (saveDesign w resp s) = s
  /\ postCount (trace (saveDesign w resp s)) = 0%nat
  /\ saveFailure (saveDesign w resp s)
       = Some (match user w with
               | Some _ => ValidationError
               | None => NotAuthenticated
               end).
Proof.
  intros H. unfold saveDesign.
  destruct (user w); [|repeat split].
  destruct (selectedProduct s) as [p|]; [|repeat split].
  destruct H as [H|H]; [discriminate|]. rewrite H. repeat split.
Qed.

Lemma C3_incomplete_save_rejected_witness :
  result (saveDesign Sample.shopper (FetchOk "d1") Sample.loaded) = None
  /\ final (saveDesign Sample.shopper (FetchOk "d1") Sample.loaded)
       = Sample.loaded
  /\ postCount (trace (saveDesign Sample.shopper (FetchOk "d1") Sample.loaded))
       = 0%nat
  /\ saveFailure (saveDesign Sample.shopper (FetchOk "d1") Sample.loaded)
       = Some ValidationError.
Proof.
  apply (C3_incomplete_save_rejected Sample.shopper (FetchOk "d1")
           Sample.loaded).
  right. reflexivity.
Defined.

(** What a successful save establishes. *)
Lemma saveDesign_success (w : World) (resp : FetchOutcome) (s : State)
    (id : string) :
  result (saveDesign w resp s) = Some id ->
  resp = FetchOk id
  /\ (exists u, user w = Some u)
  /\ (exists p, selectedProduct s = Some p)
  /\ elements s <> []
  /\ final (saveDesign w resp s)
       = setIsLoading false (setSavedDesignId (Some id) (setIsLoading true s)).
Proof.
  unfold saveDesign.
  destruct (user w) as [u|]; [|discriminate].
  destruct (selectedProduct s) as [p|]; [|discriminate].
  destruct (elements s) as [|e els] eqn:He; [discriminate|]. cbn.
  destruct resp; cbn; intros [= ->] || discriminate.
  repeat split; eauto.
Qed.

(** The recorded identifier is neither consulted nor sent by a save. *)
Lemma saveDesign_ignores_recorded_id (w : World) (resp : FetchOutcome)
    (s : State) (d : option string) :
  result (saveDesign w resp (setSavedDesignId d s))
    = result (saveDesign w resp s)
  /\ trace (saveDesign w resp (setSavedDesignId d s))
    = trace (saveDesign w resp s).
Proof.
  unfold saveDesign. cbn.
  destruct (user w); [|split; reflexivity].
  destruct (selectedProduct s); [|split; reflexivity].
  destruct (length (elements s) =? 0)%nat; [split; reflexivity|].
  destruct resp; split; reflexivity.
Qed.

(** C4, counterexample. Two saves in a row with no edit in between, each
    answered with a fresh identifier as a creation is: the second save
    sends a creation request again and returns the second identifier. *)
Lemma C4_second_save_creates_second_design :
  result (saveDesign Sample.shopper (FetchOk "d1") Sample.withText)
    = Some "d1"
  /\ savedDesignId Sample.saved = Some "d1"
  /\ result (saveDesign Sample.shopper (FetchOk "d2") Sample.saved)
       = Some "d2"
  /\ postCount (trace (saveDesign Sample.shopper (FetchOk "d2") Sample.saved))
       = 1%nat
  /\ result (saveDesign Sample.shopper (FetchOk "d2") Sample.saved)
       <> result (saveDesign Sample.shopper (FetchOk "d1") Sample.withText).
Proof. repeat split; try reflexivity. cbn. discriminate. Qed.

(** C4, amended. A save repeated without further edits sends the same
    creation request once more, never an update: it returns and records
    whatever identifier the second response carries, and keeps the first
    one recorded when the second request fails. *)
Theorem C4_resave_creates_again (w : World) (resp1 resp2 : FetchOutcome)
    (s : State) (id1 : string) :
  result (saveDesign w resp1 s) = Some id1 ->
  filter isPost (trace (saveDesign w resp2 (final (saveDesign w resp1 s))))
    = filter isPost (trace (saveDesign w resp1 s))
  /\ postCount (trace (saveDesign w resp2 (final (saveDesign w resp1 s))))
       = 1%nat
  /\ result (saveDesign w resp2 (final (saveDesign w resp1 s)))
       = match resp2 with FetchOk id2 => Some id2 | _ => None end
  /\ savedDesignId (final (saveDesign w resp2 (final (saveDesign w resp1 s))))
       = Some match resp2 with FetchOk id2 => id2 | _ => id1 end.
Proof.
  intros Hok.
  destruct (saveDesign_success w resp1 s id1 Hok)
    as (-> & [u Hu] & [p Hp] & He & ->).
  unfold saveDesign. rewrite Hu. cbn. rewrite Hp.
  destruct (elements s) as [|e els]; [contradiction|]. cbn.
  destruct resp2; repeat split.
Qed.

Lemma C4_resave_creates_again_witness :
  filter isPost (trace (saveDesign Sample.shopper (FetchOk "d2") Sample.saved))
    = filter isPost
        (trace (saveDesign Sample.shopper (FetchOk "d1") Sample.withText))
  /\ postCount (trace (saveDesign Sample.shopper (FetchOk "d2") Sample.saved))
       = 1%nat
  /\ result (saveDesign Sample.shopper (FetchOk "d2") Sample.saved)
       = Some "d2"
  /\ savedDesignId
       (final (saveDesign Sample.shopper (FetchOk "d2") Sample.saved))
       = Some "d2".
Proof.
  apply (C4_resave_creates_again Sample.shopper (FetchOk "d1") (FetchOk "d2")
           Sample.withText "d1").
  reflexivity.
Defined.

(** ** Adding to the cart *)

Section Cart.

Context {num : Type} {JN : JsNumber num}.

(** With elements in the design and no truthy identifier recorded, the
    save runs first and the cart item carries what it returned: the new
    identifier, or no identifier at all when the save failed. *)
Lemma addToCart_implicit_save (w : World) (u : User) (p : Product.t)
    (saveResp : FetchOutcome) (cartResp : MutationOutcome) (s : State) :
  user w = Some u ->
  selectedProduct s = Some p ->
  elements s <> [] ->
  truthyId (savedDesignId s) = false ->
  (exists body rest,
      trace (addToCartWithDesign w saveResp cartResp s)
        = PostDesign body :: rest)
  /\ postCount (trace (addToCartWithDesign w saveResp cartResp s)) = 1%nat
  /\ cartItems (trace (addToCartWithDesign w saveResp cartResp s))
       = [CartItemData.mk (Product.id p)
            (match saveResp with FetchOk id => Some id | _ => None end)
            (quantity s) (selectedSize s) (selectedColor s)
            (toFixed2 (unitPrice p (elements s)))].
Proof.
  intros Hu Hp He Hid. unfold addToCartWithDesign.
  rewrite Hu, Hp, Hid. unfold saveDesign. rewrite Hu. cbn. rewrite Hp.
  destruct (elements s) as [|e els]; [contradiction|]. cbn.
  destruct saveResp, cartResp; cbn; repeat split; eauto.
Qed.

(** With a truthy identifier recorded, no save runs and the cart item
    carries the recorded identifier. *)
Lemma addToCart_recorded_id (w : World) (u : User) (p : Product.t)
    (id : string) (saveResp : FetchOutcome) (cartResp : MutationOutcome)
    (s : State) :
  user w = Some u ->
  selectedProduct s = Some p ->
  savedDesignId s = Some id ->
  id <> "" ->
  postCount (trace (addToCartWithDesign w saveResp cartResp s)) = 0%nat
  /\ cartItems (trace (addToCartWithDesign w saveResp cartResp s))
       = [CartItemData.mk (Product.id p) (Some id) (quantity s)
            (selectedSize s) (selectedColor s)
            (toFixed2 (unitPrice p (elements s)))]
  /\ savedDesignId (final (addToCartWithDesign w saveResp cartResp s))
       = Some id.
Proof.
  intros Hu Hp Hid Hne. unfold addToCartWithDesign.
  rewrite Hu, Hp, Hid.
  assert (truthyId (Some id) = true) as -> by (destruct id; [contradiction|reflexivity]).
  rewrite andb_false_r. cbn. rewrite Hid.
  destruct cartResp; repeat split.
Qed.

End Cart.

(** C5, the failing input. A signed-in shopper adds a design with one
    element and no saved identifier to the cart, and the implicit save is
    answered with a response that is not [ok]: the creation request is sent
    first, fails, and the cart item is submitted all the same, at the price
    that includes the design fee and with no design identifier. *)
Theorem C5_cart_item_after_failed_save :
  elements Sample.withText <> []
  /\ savedDesignId Sample.withText = None
  /\ postCount (trace (addToCartWithDesign (num := option Q) Sample.shopper
                         FetchNotOk MutationResolved Sample.withText)) = 1%nat
  /\ cartItems (trace (addToCartWithDesign (num := option Q) Sample.shopper
                         FetchNotOk MutationResolved Sample.withText))
       = [CartItemData.mk "p1" None 1 (Some "S") (Some "white") "25.00"].
Proof. repeat split; try reflexivity. cbn. discriminate. Qed.

(** C10. After a successful save in the session, whatever the shopper does
    afterwards short of saving again (adding elements included), adding to
    the cart sends no creation request and the cart item refers to the
    identifier that save recorded. The identifier is a non-empty string:
    the guard tests its truthiness. *)
Theorem C10_cart_reuses_recorded_design {num : Type} {JN : JsNumber num}
    (w : World) (resp saveResp : FetchOutcome) (cartResp : MutationOutcome)
    (s0 : State) (id : string) (ops : list SessionOp) :
  result (saveDesign w resp s0) = Some id ->
  id <> "" ->
  postCount
    (trace (addToCartWithDesign w saveResp cartResp
              (sessionRun (final (saveDesign w resp s0)) ops))) = 0%nat
  /\ CartItemData.designId <$>
       cartItems
         (trace (addToCartWithDesign w saveResp cartResp
                   (sessionRun (final (saveDesign w resp s0)) ops)))
       = [Some id]
  /\ savedDesignId
       (final (addToCartWithDesign w saveResp cartResp
                 (sessionRun (final (saveDesign w resp s0)) ops)))
       = Some id.
Proof.
  intros Hok Hne.
  destruct (saveDesign_success w resp s0 id Hok)
    as (_ & [u Hu] & [p Hp] & _ & Hfinal).
  destruct (sessionRun_frame ops (final (saveDesign w resp s0)))
    as [[p' Hprod] Hid].
  { rewrite Hfinal. cbn. eauto. }
  rewrite Hfinal in Hid at 2. cbn in Hid.
  destruct (addToCart_recorded_id w u p' id saveResp cartResp
              (sessionRun (final (saveDesign w resp s0)) ops))
    as (Hpost & Hitems & Hsaved); try assumption.
  rewrite Hpost, Hitems, Hsaved. repeat split.
Qed.

Lemma C10_cart_reuses_recorded_design_witness :
  elements Sample.editedAfterSave <> elements Sample.withText
  /\ postCount
       (trace (addToCartWithDesign (num := option Q) Sample.shopper
                 (FetchOk "d2") MutationResolved Sample.editedAfterSave))
     = 0%nat
  /\ CartItemData.designId <$>
       cartItems
         (trace (addToCartWithDesign (num := option Q) Sample.shopper
                   (FetchOk "d2") MutationResolved Sample.editedAfterSave))
     = [Some "d1"]
  /\ savedDesignId
       (final (addToCartWithDesign (num := option Q) Sample.shopper
                 (FetchOk "d2") MutationResolved Sample.editedAfterSave))
     = Some "d1".
Proof.
  split; [cbn; discriminate|].
  apply (C10_cart_reuses_recorded_design (num := option Q) Sample.shopper
           (FetchOk "d1") (FetchOk "d2") MutationResolved Sample.withText "d1"
           [Edit (OpAddShape 2000 circle)]).
  - reflexivity.
  - discriminate.
Defined.

(** ** Rendering *)

Section Render.

Context {num : Type} {JN : JsNumber num} {JT : JsText}.

Lemma labelsOf_app (l k : list (DrawCmd num)) :
  labelsOf (l ++ k) = labelsOf l ++ labelsOf k.
Proof. apply omap_app. Qed.

(** Design elements are drawn centered: none of them is a label. *)
Lemma labelsOf_element (e : DesignElement.t) : labelsOf (drawElement e) = [].
Proof.
  unfold drawElement. destruct (DesignElement.type e); [reflexivity| |reflexivity].
  destruct (String.eqb _ "rectangle"); [reflexivity|].
  destruct (String.eqb _ "circle"); reflexivity.
Qed.

Lemma labelsOf_elements (els : list DesignElement.t) :
  labelsOf (concat (map drawElement els)) = [].
Proof.
  induction els as [|e els IH]; [reflexivity|].
  cbn [map concat]. now rewrite labelsOf_app, labelsOf_element, IH.
Qed.

Lemma labelsOf_background (cv : Canvas) (s : State) (bg : DrawCmd num) :
  drawBackground cv s = Some bg -> labelsOf [bg] = [].
Proof.
  unfold drawBackground.
  destruct (selectedProduct s); [|now intros [= <-]].
  destruct (imagesLoaded s); [|now intros [= <-]].
  destruct (getMember _ _); [|discriminate|now intros [= <-]].
  destruct (ngtb _ _); now intros [= <-].
Qed.

Lemma drawBackground_drawn (cv : Canvas) (s : State) :
  namesInheritedMember s (colorKey (selectedColor s)) = false ->
  exists bg, drawBackground cv s = Some bg.
Proof.
  unfold drawBackground, namesInheritedMember.
  destruct (selectedProduct s); [|eauto].
  destruct (imagesLoaded s); cbn; [|eauto].
  destruct (getMember _ _); [|discriminate|eauto].
  destruct (ngtb _ _); eauto.
Qed.

(** When the background throws. *)
Lemma drawBackground_throws (cv : Canvas) (s : State) (p : Product.t) :
  selectedProduct s = Some p ->
  drawBackground cv s = None
  <-> namesInheritedMember s (colorKey (selectedColor s)) = true.
Proof.
  intros Hp. unfold drawBackground, namesInheritedMember. rewrite Hp.
  destruct (imagesLoaded s); cbn; [|split; discriminate].
  destruct (getMember _ _); [|split; reflexivity|split; discriminate].
  destruct (ngtb _ _); split; discriminate.
Qed.

(** The selected size is not read by the renderer. *)
Lemma drawCanvas_ignores_size (w : World) (z : option string) (s : State) :
  drawCanvas w (setSelectedSize z s) = drawCanvas w s.
Proof. reflexivity. Qed.

End Render.

(** C6, counterexample. With black selected, the renders for the sizes M
    and S are the same, and their label reads "Classic Tee - BLACK". *)
Lemma C6_label_leaves_out_size :
  labelsOf (drawCanvas (num := option Q) Sample.shopper
              (onSizeChange "M" (onColorChange "black" Sample.loaded))).1
    = ["Classic Tee - BLACK"]
  /\ labelsOf (drawCanvas (num := option Q) Sample.shopper
                 (onSizeChange "S" (onColorChange "black" Sample.loaded))).1
    = ["Classic Tee - BLACK"]
  /\ drawCanvas (num := option Q) Sample.shopper
       (onSizeChange "M" (onColorChange "black" Sample.loaded))
     = drawCanvas (num := option Q) Sample.shopper
         (onSizeChange "S" (onColorChange "black" Sample.loaded)).
Proof. repeat split; vm_compute; reflexivity. Qed.

(** C6, amended. After a color and a size are selected for the selected
    product, the render ends with exactly one label, drawn top-left: the
    product name, " - " and the selected color in upper case (for an ASCII
    color, with a to z turned into A to Z). The selected size is not shown
    and does not change the render. The one exception is a color that names
    a member the mockup object inherits, once the mockups are loaded: the
    render then ends in a [TypeError] while drawing the background, with no
    label. *)
Theorem C6_label_shows_name_and_color {num : Type} {JN : JsNumber num}
    {JT : JsText}
    (w : World) (cv : Canvas) (s : State) (p : Product.t) (c z : string) :
  canvasRef w = Some cv ->
  context2d cv = true ->
  selectedProduct s = Some p ->
  labelsOf (drawCanvas w (onSizeChange z (onColorChange c s))).1
    = (if namesInheritedMember s c then []
       else [Product.name p +:+ " - " +:+ toUpperCase c])
  /\ last (drawCanvas w (onSizeChange z (onColorChange c s))).1
     = Some (if namesInheritedMember s c
             then ClearRect (ofZ 0) (ofZ 0) (ofZ (canvasWidth cv))
                    (ofZ (canvasHeight cv))
             else FillText "#ffffff" "12px Arial" "left"
                    (Product.name p +:+ " - " +:+ toUpperCase c)
                    (ofZ 10) (ofZ 22))
  /\ (drawCanvas w (onSizeChange z (onColorChange c s))).2
     = (if namesInheritedMember s c then TypeError else Normal)
  /\ (JsString.isAscii c = true ->
      toUpperCase c = JsString.asciiUpperCase c)
  /\ forall z' : string,
       drawCanvas w (onSizeChange z' (onColorChange c s))
       = drawCanvas w (onSizeChange z (onColorChange c s)).
Proof.
  intros Hcv Hctx Hp.
  set (s' := onSizeChange z (onColorChange c s)).
  assert (Hp' : selectedProduct s' = Some p) by exact Hp.
  assert (Hc' : selectedColor s' = Some c) by reflexivity.
  assert (Hthrow : namesInheritedMember s' (colorKey (selectedColor s'))
                   = namesInheritedMember s c) by reflexivity.
  assert (Hrender :
            drawCanvas w s'
            = if namesInheritedMember s c
              then ([ClearRect (ofZ 0) (ofZ 0) (ofZ (canvasWidth cv))
                       (ofZ (canvasHeight cv))], TypeError)
              else match drawBackground cv s' with
                   | Some bg =>
                       (ClearRect (ofZ 0) (ofZ 0) (ofZ (canvasWidth cv))
                          (ofZ (canvasHeight cv))
                          :: bg
                          :: StrokeRect "#e5e7eb" 2 (ofZ 0) (ofZ 0)
                               (ofZ (canvasWidth cv)) (ofZ (canvasHeight cv))
                          :: concat (map drawElement (elements s'))
                          ++ [FillRect "rgba(0, 0, 0, 0.7)" (ofZ 5) (ofZ 5)
                                (ofZ 200) (ofZ 25);
                              FillText "#ffffff" "12px Arial" "left"
                                (Product.name p +:+ " - " +:+ toUpperCase c)
                                (ofZ 10) (ofZ 22)],
                        Normal)
                   | None => ([], Normal)
                   end).
  { unfold drawCanvas, drawOverlay. rewrite Hcv, Hctx, Hp', Hc'. cbn [negb fst snd].
    rewrite <- Hthrow.
    destruct (drawBackground cv s') as [bg|] eqn:Hbg.
    - destruct (namesInheritedMember _ _) eqn:Hn; [|reflexivity].
      apply (drawBackground_throws cv s' p Hp') in Hn. congruence.
    - apply (drawBackground_throws cv s' p Hp') in Hbg. now rewrite Hbg. }
  split; [|split; [|split; [|split]]].
  - rewrite Hrender. destruct (namesInheritedMember s c) eqn:Hn; [reflexivity|].
    destruct (drawBackground cv s') as [bg|] eqn:Hbg.
    + cbn [fst].
      change (?a :: ?b :: ?d :: ?l ++ ?k) with ([a] ++ [b] ++ [d] ++ l ++ k).
      rewrite !labelsOf_app, (labelsOf_background cv s' bg Hbg),
        labelsOf_elements.
      reflexivity.
    + apply (drawBackground_throws cv s' p Hp') in Hbg. congruence.
  - rewrite Hrender. destruct (namesInheritedMember s c) eqn:Hn; [reflexivity|].
    destruct (drawBackground cv s') as [bg|] eqn:Hbg.
    + cbn [fst]. rewrite !last_cons, last_app. reflexivity.
    + apply (drawBackground_throws cv s' p Hp') in Hbg. congruence.
  - rewrite Hrender. destruct (namesInheritedMember s c) eqn:Hn; [reflexivity|].
    destruct (drawBackground cv s') as [bg|] eqn:Hbg; [reflexivity|].
    apply (drawBackground_throws cv s' p Hp') in Hbg. congruence.
  - apply toUpperCase_ascii.
  - intros z'. subst s'. unfold onSizeChange.
    now rewrite !drawCanvas_ignores_size.
Qed.

Lemma C6_label_shows_name_and_color_witness :
  labelsOf (drawCanvas (num := option Q) Sample.shopper
              (onSizeChange "M" (onColorChange "black" Studio.ready))).1
    = ["Classic Tee - BLACK"]
  /\ (drawCanvas (num := option Q) Sample.shopper
        (onSizeChange "M" (onColorChange "black" Studio.ready))).2
     = Normal
  /\ labelsOf (drawCanvas (num := option Q) Sample.shopper
                 (onSizeChange "M" (onColorChange "constructor" Studio.ready))).1
     = []
  /\ (drawCanvas (num := option Q) Sample.shopper
        (onSizeChange "M" (onColorChange "constructor" Studio.ready))).2
     = TypeError.
Proof.
  pose proof (C6_label_shows_name_and_color (num := option Q) Sample.shopper
                Studio.canvas Studio.ready Sample.tee "black" "M"
                eq_refl eq_refl eq_refl) as (Hl & _ & Hn & _).
  pose proof (C6_label_shows_name_and_color (num := option Q) Sample.shopper
                Studio.canvas Studio.ready Sample.tee "constructor" "M"
                eq_refl eq_refl eq_refl) as (Hl' & _ & Hn' & _).
  split; [exact Hl|]. split; [exact Hn|]. split; [exact Hl'|exact Hn'].
Defined.

(** * Properties of the rest of the component *)

(** ** Loading the mockups *)

Lemma buildImageMap_snoc (events : list ImageEvent) (e : ImageEvent) :
  buildImageMap (events ++ [e]) = onImageEvent (buildImageMap events) e.
Proof. unfold buildImageMap. now rewrite fold_left_app. Qed.

Lemma onImageEvent_dom (m : gmap string Image) (e : ImageEvent) :
  dom (onImageEvent m e) ⊆ dom m ∪ {[eventColor e]}.
Proof.
  destruct e as [c img|c]; cbn.
  - rewrite dom_insert. set_solver.
  - destruct (negb _); [|set_solver].
    destruct (m !! "white"); [|set_solver].
    rewrite dom_insert. set_solver.
Qed.

(** A callback leaves the entries of the other colors alone. *)
Lemma onImageEvent_other (m : gmap string Image) (e : ImageEvent)
    (c : string) :
  c <> eventColor e -> onImageEvent m e !! c = m !! c.
Proof.
  intros Hc. destruct e as [c' img|c']; cbn in *.
  - now rewrite lookup_insert_ne.
  - destruct (negb _); [|reflexivity].
    destruct (m !! "white"); [|reflexivity].
    now rewrite lookup_insert_ne.
Qed.

Lemma fold_onImageEvent_other (events : list ImageEvent)
    (m : gmap string Image) (c : string) :
  c ∉ eventColor <$> events -> fold_left onImageEvent events m !! c = m !! c.
Proof.
  revert m. induction events as [|e events IH]; intros m Hc; [reflexivity|].
  cbn in *. apply not_elem_of_cons in Hc as [Hne Hc].
  rewrite IH by assumption. now apply onImageEvent_other.
Qed.

Lemma buildImageMap_dom (events : list ImageEvent) :
  dom (buildImageMap events) ⊆ list_to_set (eventColor <$> events).
Proof.
  induction events as [|e events IH] using rev_ind; [set_solver|].
  rewrite buildImageMap_snoc, fmap_app, list_to_set_app.
  pose proof (onImageEvent_dom (buildImageMap events) e). set_solver.
Qed.

Lemma buildImageMap_loaded (events : list ImageEvent) (c : string)
    (img : Image) :
  NoDup (eventColor <$> events) ->
  ImageLoaded c img ∈ events ->
  buildImageMap events !! c = Some img.
Proof.
  intros Hnd Hin.
  apply list_elem_of_split in Hin as (pre & post & ->).
  rewrite fmap_app, fmap_cons in Hnd. cbn in Hnd.
  apply NoDup_app in Hnd as (_ & _ & Hpost%NoDup_cons).
  destruct Hpost as [Hpost _].
  unfold buildImageMap. rewrite fold_left_app. cbn.
  rewrite fold_onImageEvent_other by exact Hpost.
  apply lookup_insert_eq.
Qed.

Lemma mockupColors_NoDup : NoDup mockupColors.
Proof. apply (bool_decide_unpack _). vm_compute. exact I. Qed.

Lemma loadTshirtImages_pending (events : list ImageEvent) (s : State) :
  ~ eventColor <$> events ≡ₚ mockupColors -> loadTshirtImages events s = s.
Proof.
  intros Hp. unfold loadTshirtImages, allSettled.
  now rewrite bool_decide_eq_false_2.
Qed.

Lemma loadTshirtImages_settled (events : list ImageEvent) (s : State) :
  eventColor <$> events ≡ₚ mockupColors ->
  loadTshirtImages events s
  = setImagesLoaded true (setTshirtImages (buildImageMap events) s).
Proof.
  intros Hp. unfold loadTshirtImages, allSettled.
  now rewrite bool_decide_eq_true_2.
Qed.

Section Mockups.

Context {num : Type} {JN : JsNumber num} {JT : JsText}.

Definition drawsImage (c : DrawCmd num) : bool :=
  match c with
  | DrawImage _ _ _ _ _ => true
  | _ => false
  end.

Lemma drawElement_no_image (e : DesignElement.t) :
  existsb drawsImage (drawElement e) = false.
Proof.
  unfold drawElement. destruct (DesignElement.type e); [reflexivity| |reflexivity].
  destruct (String.eqb _ "rectangle"); [reflexivity|].
  destruct (String.eqb _ "circle"); reflexivity.
Qed.

Lemma drawElements_no_image (els : list DesignElement.t) :
  existsb drawsImage (concat (map drawElement els)) = false.
Proof.
  induction els as [|e els IH]; [reflexivity|].
  cbn [map concat]. now rewrite existsb_app, drawElement_no_image, IH.
Qed.

Lemma drawOverlay_no_image (s : State) :
  existsb drawsImage (drawOverlay s).1 = false.
Proof.
  unfold drawOverlay. destruct (selectedProduct s); [|reflexivity].
  destruct (selectedColor s); reflexivity.
Qed.

(** Until each of the five colors has fired its load or error
    callback, nothing of what has arrived is stored: from a state whose
    mockups are not loaded, the render still issues no [drawImage], and the
    background is the solid fill. *)
Theorem no_mockup_drawn_before_all_settled (w : World)
    (events : list ImageEvent) (s : State) :
  imagesLoaded s = false ->
  ~ eventColor <$> events ≡ₚ mockupColors ->
  imagesLoaded (loadTshirtImages events s) = false
  /\ tshirtImages (loadTshirtImages events s) = tshirtImages s
  /\ existsb drawsImage (drawCanvas w (loadTshirtImages events s)).1 = false
  /\ forall cv : Canvas,
       drawBackground cv (loadTshirtImages events s)
       = Some (FillRect (solidFill (selectedColor s)) (ofZ 0) (ofZ 0)
                 (ofZ (canvasWidth cv)) (ofZ (canvasHeight cv))).
Proof.
  intros Hl Hp. rewrite (loadTshirtImages_pending events s Hp).
  assert (Hbg : forall cv : Canvas,
             drawBackground cv s
             = Some (FillRect (solidFill (selectedColor s)) (ofZ 0) (ofZ 0)
                       (ofZ (canvasWidth cv)) (ofZ (canvasHeight cv)))).
  { intros cv. unfold drawBackground. rewrite Hl.
    now destruct (selectedProduct s). }
  split; [exact Hl|]. split; [reflexivity|]. split; [|exact Hbg].
  unfold drawCanvas. destruct (canvasRef w) as [cv|]; [|reflexivity].
  destruct (negb _); [reflexivity|]. rewrite Hbg. cbn [fst existsb drawsImage].
  now rewrite existsb_app, drawElements_no_image, drawOverlay_no_image.
Qed.

(** Once each of the five colors has fired one callback, in whatever
    order, the mockups are loaded, and a color whose picture loaded has
    exactly that picture: no later callback or fallback overwrites it, and
    a render with a product selected in that color draws that picture as
    its background. *)
Theorem loaded_color_keeps_its_image (cv : Canvas)
    (events : list ImageEvent) (c : string) (img : Image) (s : State) :
  eventColor <$> events ≡ₚ mockupColors ->
  ImageLoaded c img ∈ events ->
  imagesLoaded (loadTshirtImages events s) = true
  /\ tshirtImages (loadTshirtImages events s) !! c = Some img
  /\ (is_Some (selectedProduct s) ->
      selectedColor s = Some c ->
      exists dx dy dw dh : num,
        drawBackground cv (loadTshirtImages events s)
        = Some (DrawImage img dx dy dw dh)).
Proof.
  intros Hp Hin. rewrite (loadTshirtImages_settled events s Hp).
  assert (Hc : buildImageMap events !! c = Some img).
  { apply buildImageMap_loaded; [|exact Hin].
    rewrite Hp. apply mockupColors_NoDup. }
  split; [reflexivity|]. split; [exact Hc|].
  intros [p Hsel] Hcol. unfold drawBackground, getMember. cbn.
  rewrite Hsel, Hcol. cbn. rewrite Hc.
  destruct (ngtb _ _); eauto.
Qed.

End Mockups.

Lemma no_mockup_drawn_before_all_settled_witness :
  existsb drawsImage
    (drawCanvas (num := option Q) Sample.shopper
       (loadTshirtImages
          [ImageFailed "black";
           ImageLoaded "white" {| imgWidth := 800; imgHeight := 1000 |};
           ImageLoaded "navy" {| imgWidth := 640; imgHeight := 640 |}]
          Sample.loaded)).1
  = false.
Proof.
  apply (no_mockup_drawn_before_all_settled (num := option Q) Sample.shopper
           [ImageFailed "black";
            ImageLoaded "white" {| imgWidth := 800; imgHeight := 1000 |};
            ImageLoaded "navy" {| imgWidth := 640; imgHeight := 640 |}]
           Sample.loaded eq_refl).
  apply (bool_decide_eq_false_1 _). vm_compute. reflexivity.
Defined.

Lemma loaded_color_keeps_its_image_witness :
  tshirtImages
    (loadTshirtImages
       [ImageFailed "black"; ImageFailed "red";
        ImageLoaded "white" {| imgWidth := 800; imgHeight := 1000 |};
        ImageLoaded "navy" {| imgWidth := 640; imgHeight := 640 |};
        ImageFailed "natural"]
       Sample.loaded) !! "white"
  = Some {| imgWidth := 800; imgHeight := 1000 |}.
Proof.
  apply (loaded_color_keeps_its_image (num := option Q) Studio.canvas
           [ImageFailed "black"; ImageFailed "red";
            ImageLoaded "white" {| imgWidth := 800; imgHeight := 1000 |};
            ImageLoaded "navy" {| imgWidth := 640; imgHeight := 640 |};
            ImageFailed "natural"]
           "white" {| imgWidth := 800; imgHeight := 1000 |} Sample.loaded).
  - apply (bool_decide_unpack _). vm_compute. exact I.
  - right. right. left.
Defined.

(** When every color fires one callback, a color whose image failed ends
    with the white image if the white image had loaded before the failure,
    and with no image otherwise; white itself never has a fallback. *)
Theorem failed_color_falls_back_to_earlier_white
    (pre post : list ImageEvent) (c : string) :
  NoDup (eventColor <$> pre ++ ImageFailed c :: post) ->
  buildImageMap (pre ++ ImageFailed c :: post) !! c
  = if String.eqb c "white" then None else buildImageMap pre !! "white".
Proof.
  intros Hnd. rewrite fmap_app, fmap_cons in Hnd. cbn in Hnd.
  apply NoDup_app in Hnd as (_ & Hpre & Hpost%NoDup_cons).
  destruct Hpost as [Hpost _].
  assert (Hfresh : buildImageMap pre !! c = None).
  { apply not_elem_of_dom. intros Hin.
    apply buildImageMap_dom, elem_of_list_to_set in Hin.
    apply (Hpre c Hin). left. }
  unfold buildImageMap at 1. rewrite fold_left_app. cbn [fold_left].
  rewrite fold_onImageEvent_other by exact Hpost.
  fold (buildImageMap pre). cbn.
  destruct (String.eqb_spec c "white") as [->|Hne]; cbn; [exact Hfresh|].
  destruct (buildImageMap pre !! "white") as [white|] eqn:Hw.
  - apply lookup_insert_eq.
  - exact Hfresh.
Qed.

Lemma failed_color_falls_back_to_earlier_white_witness :
  buildImageMap
    ([ImageLoaded "white" {| imgWidth := 800; imgHeight := 1000 |}]
       ++ ImageFailed "red" :: [ImageFailed "black"]) !! "red"
  = Some {| imgWidth := 800; imgHeight := 1000 |}
  /\ buildImageMap
       ([] ++ ImageFailed "black" ::
          [ImageLoaded "white" {| imgWidth := 800; imgHeight := 1000 |}])
       !! "black"
     = None.
Proof.
  split.
  - apply (failed_color_falls_back_to_earlier_white
             [ImageLoaded "white" {| imgWidth := 800; imgHeight := 1000 |}]
             [ImageFailed "black"] "red").
    apply (bool_decide_unpack _). vm_compute. exact I.
  - apply (failed_color_falls_back_to_earlier_white []
             [ImageLoaded "white" {| imgWidth := 800; imgHeight := 1000 |}]
             "black").
    apply (bool_decide_unpack _). vm_compute. exact I.
Defined.

(** ** Sessions *)

Lemma cartItems_app (t1 t2 : list Effect) :
  cartItems (t1 ++ t2) = cartItems t1 ++ cartItems t2.
Proof. apply omap_app. Qed.

Lemma applyOp_elements (s : State) (o : EditOp) :
  elements s `prefix_of` elements (applyOp s o).
Proof.
  destruct o as [t input|t k]; cbn.
  - unfold addText. destruct (negb _); cbn; [reflexivity|].
    now apply prefix_app_r.
  - now apply prefix_app_r.
Qed.

Lemma initialState_atRest : atRest initialState.
Proof. repeat split; cbn; (lia || discriminate). Qed.

Lemma grown_not_empty {A : Type} (l k : list A) :
  l `prefix_of` k -> l <> [] -> k <> [].
Proof. intros [k' ->] Hl. now destruct l. Qed.

Lemma sessionStep_atRest (s : State) (o : SessionOp) :
  atRest s -> atRest (sessionStep s o).
Proof.
  intros (Hq & Hl & Hs).
  destruct (sessionStep_frame s o) as [Hprod Hid].
  destruct o as [e|value|value|value|parsed| | |value|value|parsed|value|tool];
    cbn [sessionStep] in *;
    try (split; [exact Hq|split; [exact Hl|exact Hs]]).
  - pose proof (applyOp_elements s e) as Hpre.
    destruct e as [t input|t k]; cbn in *.
    + unfold addText in *. destruct (negb _); cbn in *;
        (split; [exact Hq|split; [exact Hl|]]); intros Ht;
        destruct (Hs Ht) as [He Hp]; split; auto.
      eapply grown_not_empty; [exact Hpre|exact He].
    + split; [exact Hq|split; [exact Hl|]]. intros Ht.
      destruct (Hs Ht) as [He Hp]. split; [|exact Hp].
      eapply grown_not_empty; [exact Hpre|exact He].
  - unfold onProductChange in *. destruct (find _ _); cbn in *;
      (split; [exact Hq|split; [exact Hl|]]); intros Ht;
      destruct (Hs Ht) as [He Hp]; split; auto.
  - split; [apply Z.le_max_l|split; [exact Hl|exact Hs]].
  - split; [|split; [exact Hl|exact Hs]].
    unfold increaseQuantity, setQuantity; cbn [quantity]. lia.
  - split; [apply Z.le_max_l|split; [exact Hl|exact Hs]].
Qed.

Lemma saveDesign_atRest (w : World) (resp : FetchOutcome) (s : State) :
  atRest s -> atRest (final (saveDesign w resp s)).
Proof.
  intros H. unfold saveDesign.
  destruct (user w); [|exact H].
  destruct (selectedProduct s) as [p|] eqn:Hp; [|exact H].
  destruct (elements s) as [|e els] eqn:He; cbn; [exact H|].
  destruct H as (Hq & Hl & Hs).
  destruct resp; cbn; (split; [exact Hq|split; [reflexivity|]]);
    cbn; rewrite ?He, ?Hp; eauto.
Qed.

Section SessionFacts.

Context {num : Type} {JN : JsNumber num}.

Lemma addToCart_atRest (w : World) (saveResp : FetchOutcome)
    (cartResp : MutationOutcome) (s : State) :
  atRest s -> atRest (final (addToCartWithDesign w saveResp cartResp s)).
Proof.
  intros H. unfold addToCartWithDesign.
  destruct (user w) as [u|] eqn:Hu; [|exact H].
  destruct (selectedProduct s) as [p|] eqn:Hp; [|exact H].
  destruct H as (Hq & Hl & Hs).
  destruct (_ && _) eqn:Hguard; cbn.
  - apply andb_true_iff in Hguard as [Hlen _].
    unfold saveDesign. rewrite Hu. cbn. rewrite Hp.
    destruct (elements s) as [|e els] eqn:He; [discriminate|]. cbn.
    destruct saveResp; cbn; (split; [exact Hq|split; [reflexivity|]]);
      cbn; rewrite ?He, ?Hp; eauto.
  - split; [exact Hq|split; [reflexivity|]]. cbn. intros Ht.
    destruct (Hs Ht) as [He _]. eauto.
Qed.

Lemma act_atRest (s : State) (a : Action) :
  atRest s -> atRest (final (act s a)).
Proof.
  intros H. destruct a as [o|resp|events|w resp|w saveResp cartResp]; cbn.
  - now apply sessionStep_atRest.
  - unfold fetchProducts.
    destruct resp as [data|data|]; [| |exact H];
      destruct H as (Hq & Hl & Hs);
      (destruct data as [|first rest]; cbn;
       (split; [exact Hq|split; [exact Hl|]]); [exact Hs|];
       cbn; intros Ht; destruct (Hs Ht) as [He _]; eauto).
  - unfold loadTshirtImages. destruct (allSettled events); exact H.
  - now apply saveDesign_atRest.
  - now apply addToCart_atRest.
Qed.

Lemma session_atRest (actions : list Action) (s : State) :
  atRest s -> atRest (final (session s actions)).
Proof.
  revert s. induction actions as [|a actions IH]; intros s Hs; [exact Hs|].
  cbn. apply IH. now apply act_atRest.
Qed.

(** A property of the cart items of single actions, taken from states at
    rest, holds of the cart items of whole sessions. *)
Lemma session_cartItems (Q : CartItemData.t -> Prop) :
  (forall s a, atRest s -> Forall Q (cartItems (trace (act s a)))) ->
  forall actions s, atRest s ->
    Forall Q (cartItems (trace (session s actions))).
Proof.
  intros Hstep actions. induction actions as [|a actions IH]; intros s Hs.
  - constructor.
  - cbn. rewrite cartItems_app. apply Forall_app. split.
    + now apply Hstep.
    + apply IH. now apply act_atRest.
Qed.

Lemma saveDesign_no_cartItems (w : World) (resp : FetchOutcome) (s : State) :
  cartItems (trace (saveDesign w resp s)) = [].
Proof.
  unfold saveDesign.
  destruct (user w); [|reflexivity].
  destruct (selectedProduct s); [|reflexivity].
  destruct (length (elements s) =? 0)%nat; [reflexivity|].
  destruct resp; reflexivity.
Qed.

(** The cart items of one action: none, or the one item that add-to-cart
    builds from the state. *)
Lemma act_cartItems (s : State) (a : Action) :
  cartItems (trace (act s a)) = []
  \/ exists w saveResp cartResp p,
       a = ClickAddToCart w saveResp cartResp
       /\ selectedProduct s = Some p
       /\ cartItems (trace (act s a))
          = [CartItemData.mk (Product.id p)
               (result
                  (if (0 <? length (elements s))%nat
                      && negb (truthyId (savedDesignId s))
                   then saveDesign w saveResp (setIsLoading true s)
                   else mkRun (savedDesignId s) (setIsLoading true s) []))
               (quantity s) (selectedSize s) (selectedColor s)
               (toFixed2 (unitPrice p (elements s)))].
Proof.
  destruct a as [o|resp|events|w resp|w saveResp cartResp]; cbn [act trace].
  - now left.
  - left. unfold fetchProducts.
    destruct resp as [[|first rest]|[|first rest]|]; reflexivity.
  - now left.
  - left. apply saveDesign_no_cartItems.
  - unfold addToCartWithDesign.
    destruct (user w) as [u|] eqn:Hu; [|now left].
    destruct (selectedProduct s) as [p|] eqn:Hp; [|now left].
    right. exists w, saveResp, cartResp, p.
    split; [reflexivity|split; [reflexivity|]].
    cbv zeta. cbn [trace]. rewrite cartItems_app.
    assert (Hnone : forall b : bool,
               cartItems
                 (trace (if b then saveDesign w saveResp (setIsLoading true s)
                         else mkRun (savedDesignId s) (setIsLoading true s) []))
               = []).
    { intros [|]; [apply saveDesign_no_cartItems|reflexivity]. }
    rewrite Hnone. destruct cartResp; reflexivity.
Qed.

(** In every session the quantity stays at least one, and so does the
    quantity of every cart item submitted. *)
Theorem quantity_never_below_one (actions : list Action) :
  1 <= quantity (final (session initialState actions))
  /\ Forall (fun item => 1 <= CartItemData.quantity item)
       (cartItems (trace (session initialState actions))).
Proof.
  split.
  - apply (session_atRest actions initialState initialState_atRest).
  - apply session_cartItems; [|exact initialState_atRest].
    intros s a (Hq & _ & _).
    destruct (act_cartItems s a) as [->|(w & sr & cr & p & _ & _ & ->)].
    + constructor.
    + repeat constructor. exact Hq.
Qed.

(** No session ends with the buttons stuck in their loading state: once
    the handlers have run, the action buttons are disabled exactly when no
    product is selected, whatever the outcomes of the requests were. *)
Theorem loading_flag_always_released (actions : list Action) :
  isLoading (final (session initialState actions)) = false
  /\ actionsDisabled (final (session initialState actions))
     = negb (bool_decide
               (is_Some (selectedProduct (final (session initialState actions))))).
Proof.
  destruct (session_atRest actions initialState initialState_atRest)
    as (_ & Hl & _).
  unfold actionsDisabled. now rewrite Hl.
Qed.

End SessionFacts.

Lemma saveDesign_sameDesign (w : World) (resp : FetchOutcome)
    (s : State) :
  sameDesign s (final (saveDesign w resp s))
  /\ (result (saveDesign w resp s) = None ->
      savedDesignId (final (saveDesign w resp s)) = savedDesignId s).
Proof.
  unfold saveDesign, sameDesign.
  destruct (user w);
    [destruct (selectedProduct s) eqn:Hp;
       [destruct (length (elements s) =? 0)%nat; [|destruct resp]|]|];
    cbn; rewrite ?Hp; (split; [repeat split|]);
    intros H; try discriminate H; reflexivity.
Qed.

(** A save, whatever its outcome, changes at most the loading flag and the
    recorded design identifier: the design and the selection are as they
    were, and the recorded identifier too unless a new one came back. *)
Theorem save_leaves_design_untouched (w : World) (resp : FetchOutcome)
    (s : State) :
  sameDesign s (final (saveDesign w resp s))
  /\ (result (saveDesign w resp s) = None ->
      savedDesignId (final (saveDesign w resp s)) = savedDesignId s).
Proof. apply saveDesign_sameDesign. Qed.

Lemma save_leaves_design_untouched_witness :
  sameDesign Sample.withText
    (final (saveDesign Sample.shopper FetchRejected Sample.withText))
  /\ savedDesignId
       (final (saveDesign Sample.shopper FetchRejected Sample.withText))
     = savedDesignId Sample.withText.
Proof.
  destruct (save_leaves_design_untouched Sample.shopper FetchRejected
              Sample.withText) as [Hsame Hid].
  split; [exact Hsame|]. apply Hid. reflexivity.
Defined.

Section SessionFacts2.

Context {num : Type} {JN : JsNumber num}.

Lemma addToCart_sameDesign (w : World) (saveResp : FetchOutcome)
    (cartResp : MutationOutcome) (s : State) :
  sameDesign s (final (addToCartWithDesign w saveResp cartResp s)).
Proof.
  unfold addToCartWithDesign, sameDesign.
  destruct (user w) as [u|] eqn:Hu; [|repeat split].
  destruct (selectedProduct s) as [p|] eqn:Hp; [|cbn; rewrite Hp; repeat split].
  cbv zeta. cbn [final].
  destruct (_ && _).
  - destruct (saveDesign_sameDesign w saveResp (setIsLoading true s))
      as [(H1 & H2 & H3 & H4 & H5 & H6 & H7 & H8 & H9) _].
    cbn in *. rewrite H1, H2, H3, H4, H5, H6, H7, H8, H9.
    repeat split; exact Hp.
  - cbn. repeat split; exact Hp.
Qed.

Lemma sessionStep_elements (s : State) (o : SessionOp) :
  elements s `prefix_of` elements (sessionStep s o).
Proof.
  destruct o as [e|value| | | | | | | | | |]; cbn; try reflexivity.
  - apply applyOp_elements.
  - unfold onProductChange. destruct (find _ _); reflexivity.
Qed.

Lemma act_elements (s : State) (a : Action) :
  elements s `prefix_of` elements (final (act s a)).
Proof.
  destruct a as [o|resp|events|w resp|w saveResp cartResp]; cbn [act final].
  - apply sessionStep_elements.
  - unfold fetchProducts.
    destruct resp as [[|first rest]|[|first rest]|]; reflexivity.
  - unfold loadTshirtImages. destruct (allSettled events); reflexivity.
  - destruct (saveDesign_sameDesign w resp s) as [(_ & _ & -> & _) _].
    reflexivity.
  - destruct (addToCart_sameDesign w saveResp cartResp s) as (_ & _ & -> & _).
    reflexivity.
Qed.

(** No action removes, reorders or alters an element of the design: what
    the design held before a run of actions is a prefix of what it holds
    after. *)
Theorem elements_only_grow (s : State) (actions : list Action) :
  elements s `prefix_of` elements (final (session s actions)).
Proof.
  revert s. induction actions as [|a actions IH]; intros s; [reflexivity|].
  cbn. etrans; [apply act_elements|apply IH].
Qed.

(** In whatever state a session has reached, a cart item that refers to a
    design (by a non-empty identifier) is priced with the design fee. *)
Theorem design_reference_implies_fee (actions : list Action) (w : World)
    (saveResp : FetchOutcome) (cartResp : MutationOutcome) :
  Forall
    (fun item =>
       forall id, CartItemData.designId item = Some id -> id <> "" ->
         exists p,
           selectedProduct (final (session initialState actions)) = Some p
           /\ CartItemData.customPrice item
              = toFixed2 (nadd (parseFloat (Product.basePrice p)) (ofZ 5)))
    (cartItems
       (trace (addToCartWithDesign w saveResp cartResp
                 (final (session initialState actions))))).
Proof.
  pose proof (session_atRest actions initialState initialState_atRest)
    as (_ & _ & Hs).
  set (s := final (session initialState actions)) in *.
  destruct (act_cartItems s (ClickAddToCart w saveResp cartResp))
    as [Hnone|(w' & sr & cr & p & [= <- <- <-] & Hp & Hitems)];
    cbn [act] in *; [rewrite Hnone; constructor|].
  rewrite Hitems. repeat constructor.
  cbn [CartItemData.designId CartItemData.customPrice].
  intros id Hid Hne. exists p. split; [exact Hp|].
  unfold unitPrice.
  destruct (0 <? length (elements s))%nat eqn:Hlen; [reflexivity|].
  cbn [andb result] in Hid.
  destruct Hs as [He _].
  { rewrite Hid. destruct id; [contradiction|reflexivity]. }
  destruct (elements s); [contradiction|discriminate].
Qed.

Lemma createdIds_cons (a : Action) (rest : list Action) :
  createdIds (a :: rest) = createdIds [a] ++ createdIds rest.
Proof. unfold createdIds. cbn. destruct a as [| | |w [| |]|w [| |] cr]; reflexivity. Qed.

Lemma act_ids (seen : list string) (s : State) (a : Action) :
  (forall id, savedDesignId s = Some id -> id ∈ seen) ->
  Forall (fun item => forall id, CartItemData.designId item = Some id ->
                                 id ∈ seen ++ createdIds [a])
    (cartItems (trace (act s a)))
  /\ (forall id, savedDesignId (final (act s a)) = Some id ->
                 id ∈ seen ++ createdIds [a]).
Proof.
  intros Hseen. split.
  - destruct (act_cartItems s a)
      as [->|(w & sr & cr & p & -> & Hp & ->)]; [constructor|].
    repeat constructor. cbn [CartItemData.designId].
    intros id. destruct (_ && _).
    + unfold saveDesign. destruct (user w); [|discriminate].
      cbn. rewrite Hp. destruct (length (elements s) =? 0)%nat; [discriminate|].
      destruct sr; cbn; intros [= ->] || discriminate. set_solver.
    + cbn. intros Hid. apply elem_of_app. left. now apply Hseen.
  - destruct a as [o|resp|events|w resp|w saveResp cartResp]; cbn [act final].
    + destruct (sessionStep_frame s o) as [_ ->]. set_solver.
    + unfold fetchProducts.
      destruct resp as [[|first rest]|[|first rest]|]; cbn; set_solver.
    + unfold loadTshirtImages. destruct (allSettled events); cbn; set_solver.
    + unfold saveDesign. destruct (user w); [|set_solver].
      destruct (selectedProduct s); [|set_solver].
      destruct (length (elements s) =? 0)%nat; [set_solver|].
      destruct resp; cbn; [|set_solver..]. intros ? [= ->]. set_solver.
    + unfold addToCartWithDesign. destruct (user w) eqn:Hu; [|set_solver].
      destruct (selectedProduct s) eqn:Hp; [|set_solver].
      cbv zeta. cbn [final]. destruct (_ && _); [|cbn; set_solver].
      unfold saveDesign. rewrite Hu. cbn. rewrite Hp.
      destruct (length (elements s) =? 0)%nat; [cbn; set_solver|].
      destruct saveResp; cbn; [|set_solver..]. intros ? [= ->]. set_solver.
Qed.

Lemma session_ids (actions : list Action) (seen : list string) (s : State) :
  (forall id, savedDesignId s = Some id -> id ∈ seen) ->
  Forall (fun item => forall id, CartItemData.designId item = Some id ->
                                 id ∈ seen ++ createdIds actions)
    (cartItems (trace (session s actions))).
Proof.
  revert seen s. induction actions as [|a actions IH]; intros seen s Hseen;
    [constructor|].
  cbn [session trace]. rewrite cartItems_app, createdIds_cons.
  destruct (act_ids seen s a Hseen) as [Hnow Hnext].
  apply Forall_app. split.
  - eapply Forall_impl; [exact Hnow|]. cbn. intros item H id Hid.
    specialize (H id Hid). set_solver.
  - rewrite app_assoc. now apply IH.
Qed.

(** A cart item never refers to a design identifier the component made
    up: the identifier of every cart item of a session was carried by the
    response to one of the session's design-creation requests. *)
Theorem cart_design_ids_come_from_responses (actions : list Action) :
  Forall (fun item => forall id, CartItemData.designId item = Some id ->
                                 id ∈ createdIds actions)
    (cartItems (trace (session initialState actions))).
Proof.
  apply (session_ids actions [] initialState). discriminate.
Qed.

End SessionFacts2.

(** ** Selection *)

Lemma applyOp_selection (s : State) (o : EditOp) :
  products (applyOp s o) = products s
  /\ selectedProduct (applyOp s o) = selectedProduct s
  /\ selectedColor (applyOp s o) = selectedColor s
  /\ selectedSize (applyOp s o) = selectedSize s.
Proof.
  destruct o as [t input|t k]; cbn; [|repeat split].
  unfold addText. destruct (negb _); repeat split.
Qed.

Lemma declaresOptions_spec (p : Product.t) :
  declaresOptions p = true ->
  (exists c, Product.colors p !! 0%nat = Some c /\ c ∈ Product.colors p)
  /\ (exists z, Product.sizes p !! 0%nat = Some z /\ z ∈ Product.sizes p).
Proof.
  unfold declaresOptions. intros [Hc Hz]%andb_true_iff.
  destruct (Product.colors p) as [|c cs]; [discriminate|].
  destruct (Product.sizes p) as [|z zs]; [discriminate|].
  split; eexists; (split; [reflexivity|left]).
Qed.

Lemma soundSelection_frame (s s' : State) :
  products s' = products s ->
  selectedProduct s' = selectedProduct s ->
  selectedColor s' = selectedColor s ->
  selectedSize s' = selectedSize s ->
  soundSelection s -> soundSelection s'.
Proof.
  unfold soundSelection, selectionValid. now intros -> -> -> ->.
Qed.

Lemma select_first_sound (p : Product.t) (s : State) :
  declaresOptions p = true ->
  forallb declaresOptions (products s) = true ->
  soundSelection
    (setSelectedSize (Product.sizes p !! 0%nat)
       (setSelectedColor (Product.colors p !! 0%nat)
          (setSelectedProduct (Some p) s))).
Proof.
  intros Hp Hall. destruct (declaresOptions_spec p Hp) as [Hc Hz].
  split; [|exact Hall]. unfold selectionValid. cbn. split; assumption.
Qed.

Section Selection.

Context {num : Type} {JN : JsNumber num} {JT : JsText}.

Lemma act_soundSelection (s : State) (a : Action) :
  offered s a = true -> soundSelection s -> soundSelection (final (act s a)).
Proof.
  intros Hoff Hs.
  destruct a as [o|resp|events|w resp|w saveResp cartResp]; cbn [act final].
  - destruct o as [e|value|value|value|parsed| | |value|value|parsed|value|tool];
      cbn [sessionStep];
      try (revert Hs; apply soundSelection_frame; reflexivity).
    + destruct (applyOp_selection s e) as (H1 & H2 & H3 & H4).
      revert Hs. now apply soundSelection_frame.
    + unfold onProductChange.
      destruct (find _ _) as [p|] eqn:Hfind; [|exact Hs].
      destruct Hs as [_ Hall]. apply select_first_sound; [|exact Hall].
      apply find_some in Hfind as [Hin _].
      rewrite forallb_forall in Hall. now apply Hall.
    + cbn in Hoff. apply bool_decide_eq_true in Hoff.
      destruct Hs as [Hv Hall]. split; [|exact Hall].
      unfold selectionValid, colorOptions in *. cbn.
      destruct (selectedProduct s) as [p|]; [|exact I].
      destruct Hv as [_ Hz]. split; [eauto|exact Hz].
    + cbn in Hoff. apply bool_decide_eq_true in Hoff.
      destruct Hs as [Hv Hall]. split; [|exact Hall].
      unfold selectionValid, sizeOptions in *. cbn.
      destruct (selectedProduct s) as [p|]; [|exact I].
      destruct Hv as [Hc _]. split; [exact Hc|eauto].
  - assert (Hdata : forall data,
               forallb declaresOptions data = true ->
               soundSelection (final (receiveProducts data s))).
    { intros data Hall. unfold receiveProducts.
      destruct data as [|first rest]; cbn [length Nat.ltb Nat.leb final].
      - destruct Hs as [Hv _]. split; [exact Hv|reflexivity].
      - cbn [lookup list_lookup final].
        apply select_first_sound; [|exact Hall].
        cbn in Hall. now apply andb_true_iff in Hall as [? _]. }
    unfold fetchProducts.
    destruct resp as [data|data|]; [apply Hdata, Hoff|apply Hdata, Hoff|exact Hs].
  - unfold loadTshirtImages. destruct (allSettled events); [|exact Hs].
    revert Hs. apply soundSelection_frame; reflexivity.
  - destruct (saveDesign_sameDesign w resp s)
      as [(H1 & H2 & _ & H4 & H5 & _) _].
    revert Hs. now apply soundSelection_frame.
  - destruct (addToCart_sameDesign w saveResp cartResp s)
      as (H1 & H2 & _ & H4 & H5 & _).
    revert Hs. now apply soundSelection_frame.
Qed.

Lemma session_soundSelection (actions : list Action) (s : State) :
  allOffered s actions = true ->
  soundSelection s -> soundSelection (final (session s actions)).
Proof.
  revert s. induction actions as [|a actions IH]; intros s Hoff Hs; [exact Hs|].
  cbn in Hoff. apply andb_true_iff in Hoff as [Hnow Hrest].
  cbn [session final]. apply IH; [exact Hrest|].
  now apply act_soundSelection.
Qed.

(** When colors and sizes are picked among the items the widgets
    offer and every product of the catalogue declares at least one color
    and one size, the selected color and size always belong to the selected
    product, so the label overlay never fails. A render can then end in a
    [TypeError] only while drawing the background, and only when the
    mockups are loaded and the selected color is one of the names every
    object inherits; with any other selected color it ends normally. *)
Theorem selection_stays_within_product (actions : list Action) (w : World) :
  allOffered initialState actions = true ->
  selectionValid (final (session initialState actions))
  /\ (drawOverlay (final (session initialState actions))).2 = Normal
  /\ ((drawCanvas w (final (session initialState actions))).2 = TypeError ->
      imagesLoaded (final (session initialState actions)) = true
      /\ exists c,
           selectedColor (final (session initialState actions)) = Some c
           /\ c ∈ objectPrototypeKeys)
  /\ (colorKey (selectedColor (final (session initialState actions)))
        ∉ objectPrototypeKeys ->
      (drawCanvas w (final (session initialState actions))).2 = Normal).
Proof.
  intros Hoff.
  destruct (session_soundSelection actions initialState Hoff) as [Hv _];
    [split; [exact I|reflexivity]|].
  set (s := final (session initialState actions)) in *.
  assert (Hov : (drawOverlay s).2 = Normal).
  { unfold drawOverlay, selectionValid in *.
    destruct (selectedProduct s) as [p|]; [|reflexivity].
    destruct Hv as [(c & -> & _) _]. reflexivity. }
  assert (Hthrow : (drawCanvas w s).2 = TypeError ->
                   imagesLoaded s = true
                   /\ exists c, selectedColor s = Some c
                                /\ c ∈ objectPrototypeKeys).
  { unfold drawCanvas. destruct (canvasRef w) as [cv|]; [|discriminate].
    destruct (negb (context2d cv)); [discriminate|].
    destruct (drawBackground cv s) as [bg|] eqn:Hbg;
      [cbn [snd]; rewrite Hov; discriminate|].
    intros _. revert Hbg. unfold drawBackground, selectionValid in *.
    destruct (selectedProduct s) as [p|]; [|discriminate].
    destruct Hv as [(c & Hc & _) _]. rewrite Hc. cbn [colorKey].
    destruct (imagesLoaded s); [|discriminate].
    unfold getMember. destruct (tshirtImages s !! c).
    - destruct (ngtb _ _); discriminate.
    - destruct (bool_decide (c ∈ objectPrototypeKeys)) eqn:Hk; [|discriminate].
      apply bool_decide_eq_true in Hk. intros _. split; [reflexivity|eauto]. }
  split; [exact Hv|]. split; [exact Hov|]. split; [exact Hthrow|].
  intros Hkey. destruct ((drawCanvas w s).2) eqn:Hr; [reflexivity|].
  destruct (Hthrow eq_refl) as (_ & c & Hc & Hin).
  rewrite Hc in Hkey. contradiction.
Qed.


(** The two responses of the mount effect can arrive in either order: the
    resulting state is the same. *)
Theorem mount_responses_commute (resp : ProductsOutcome)
    (events : list ImageEvent) (s : State) :
  final (fetchProducts resp (loadTshirtImages events s))
  = loadTshirtImages events (final (fetchProducts resp s)).
Proof.
  unfold loadTshirtImages. destruct (allSettled events);
    destruct resp as [[|first rest]|[|first rest]|]; reflexivity.
Qed.

End Selection.

Lemma selection_stays_within_product_witness :
  selectionValid
    (final (session (num := option Q) initialState
              [Ui (Edit (OpAddText 1000 "Hi"));
               ProductsArrive (ProductsLoaded [Sample.tee]);
               Ui (PickColor "black");
               ClickSave Sample.shopper (FetchOk "d1");
               Ui (PickProduct "p1")]))
  /\ (drawCanvas (num := option Q) Sample.shopper
        (final (session (num := option Q) initialState
                  [Ui (Edit (OpAddText 1000 "Hi"));
                   ProductsArrive (ProductsLoaded [Sample.tee]);
                   Ui (PickColor "black");
                   ClickSave Sample.shopper (FetchOk "d1");
                   Ui (PickProduct "p1")]))).2 = Normal.
Proof.
  assert (Hoff : allOffered (num := option Q) initialState
                   [Ui (Edit (OpAddText 1000 "Hi"));
                    ProductsArrive (ProductsLoaded [Sample.tee]);
                    Ui (PickColor "black");
                    ClickSave Sample.shopper (FetchOk "d1");
                    Ui (PickProduct "p1")] = true)
    by (vm_compute; reflexivity).
  destruct (selection_stays_within_product (num := option Q) (JT := asciiText)
              _ Sample.shopper Hoff) as (Hv & _ & _ & Hn).
  split; [exact Hv|]. apply Hn.
  apply (bool_decide_eq_false_1 _). vm_compute. reflexivity.
Defined.



(** ** Rendering *)

Section RenderFacts.

Context {num : Type} {JN : JsNumber num} {JT : JsText}.

(** In a render whose background does not throw (the selected color
    does not name a member the loaded mockup object inherits), a new shape
    is painted over everything drawn so far and under the label: a 60 by 60
    rectangle or a disc of radius 60/2, centered at (160, 200), in the
    color of the color picker. Nothing else in the render changes. *)
Theorem new_shape_painted_over_design (w : World) (cv : Canvas) (now : Z)
    (k : ShapeType) (s : State) :
  canvasRef w = Some cv ->
  context2d cv = true ->
  namesInheritedMember s (colorKey (selectedColor s)) = false ->
  exists under,
    (drawCanvas w s).1 = under ++ (drawOverlay s).1
    /\ (drawCanvas w (addShape now k s)).1
       = under
         ++ [match k with
             | rectangle =>
                 FillRect (textColor s)
                   (nsub (ofZ 160) (ndiv (ofZ 60) (ofZ 2)))
                   (nsub (ofZ 200) (ndiv (ofZ 60) (ofZ 2)))
                   (ofZ 60) (ofZ 60)
             | circle =>
                 FillArc (textColor s) (ofZ 160) (ofZ 200)
                   (ndiv (ofZ 60) (ofZ 2))
             end]
         ++ (drawOverlay s).1
    /\ (drawCanvas w (addShape now k s)).2 = (drawCanvas w s).2.
Proof.
  intros Hcv Hctx Hbg.
  destruct (drawBackground_drawn cv s Hbg) as [bg Hdrawn].
  assert (Hdrawn' : drawBackground cv (addShape now k s) = Some bg)
    by exact Hdrawn.
  unfold drawCanvas. rewrite Hcv, Hctx, Hdrawn, Hdrawn'. cbn [negb fst snd].
  eexists (_ :: _ :: _ :: concat (map drawElement (elements s))).
  split; [reflexivity|]. split; [|reflexivity].
  change (elements (addShape now k s))
    with (elements s ++ [newShapeElement now k s]).
  rewrite map_app, concat_app. cbn [map concat].
  rewrite app_nil_r, <- !app_assoc. cbn [app].
  repeat f_equal. destruct k; reflexivity.
Qed.



(** A text added while the font-size field holds no number (or zero) is
    drawn at 24 pixels in the chosen family, centered at (160, 200). *)
Theorem text_without_font_size_drawn_at_24px (now : Z) (s : State) :
  fontSize s = None \/ fontSize s = Some 0 ->
  fontFamily s <> "" ->
  drawElement (newTextElement now s)
  = [FillText (textColor s) ("24px " +:+ fontFamily s) "center"
       (textInput s) (ofZ 160) (ofZ 200)].
Proof.
  intros Hsize Hfamily. unfold drawElement, newTextElement, fontOf. cbn.
  destruct (fontFamily s) as [|c r]; [contradiction|].
  destruct Hsize as [->| ->]; reflexivity.
Qed.

End RenderFacts.

Lemma new_shape_painted_over_design_witness :
  exists under,
    (drawCanvas (num := option Q) Sample.shopper Sample.withText).1
      = under ++ (drawOverlay (num := option Q) Sample.withText).1
    /\ (drawCanvas (num := option Q) Sample.shopper
          (addShape 2000 circle Sample.withText)).1
       = under
         ++ [FillArc "#000000" (Some (inject_Z 160)) (Some (inject_Z 200))
               (Exact.div (Some (inject_Z 60)) (Some (inject_Z 2)))]
         ++ (drawOverlay (num := option Q) Sample.withText).1.
Proof.
  destruct (new_shape_painted_over_design (num := option Q)
              Sample.shopper Studio.canvas 2000
              circle Sample.withText eq_refl eq_refl eq_refl)
    as (under & H1 & H2 & _).
  exists under. split; [exact H1|exact H2].
Defined.




Lemma text_without_font_size_drawn_at_24px_witness :
  drawElement (num := option Q)
    (newTextElement 1000
       (mkState [] None [] ToolText (Some "white") (Some "M") "Hi" "#ff0000"
          None "Impact" 1 false None ∅ false))
  = [FillText "#ff0000" "24px Impact" "center" "Hi"
       (Some (inject_Z 160)) (Some (inject_Z 200))].
Proof.
  exact (text_without_font_size_drawn_at_24px (num := option Q) 1000
           (mkState [] None [] ToolText (Some "white") (Some "M") "Hi"
              "#ff0000" None "Impact" 1 false None ∅ false)
           (or_introl eq_refl) ltac:(discriminate)).
Defined.

(** ** Saving and the cart, once more *)

(** A save that gets past its checks sends exactly one creation request,
    whatever the answer: the selected product, the elements, the selected
    color and size as they are on screen, under the product's name followed
    by " Design", with the canvas raster as thumbnail. *)
Theorem save_posts_current_design (w : World) (u : User) (p : Product.t)
    (resp : FetchOutcome) (s : State) :
  user w = Some u ->
  selectedProduct s = Some p ->
  elements s <> [] ->
  filter isPost (trace (saveDesign w resp s)) = [PostDesign (designBody w p s)]
  /\ head (trace (saveDesign w resp s)) = Some (PostDesign (designBody w p s)).
Proof.
  intros Hu Hp He. unfold saveDesign. rewrite Hu, Hp.
  destruct (elements s) as [|e els] eqn:Hels; [contradiction|]. cbn.
  unfold designBody. rewrite Hels. destruct resp; split; reflexivity.
Qed.

Lemma save_posts_current_design_witness :
  filter isPost (trace (saveDesign Sample.shopper FetchNotOk Sample.withText))
  = [PostDesign (designBody Sample.shopper Sample.tee Sample.withText)]
  /\ head (trace (saveDesign Sample.shopper FetchNotOk Sample.withText))
     = Some (PostDesign (designBody Sample.shopper Sample.tee Sample.withText)).
Proof.
  apply (save_posts_current_design Sample.shopper {| userId := "u1" |}
           Sample.tee FetchNotOk Sample.withText); try reflexivity.
  discriminate.
Defined.

Lemma sessionStep_isLoading (s : State) (o : SessionOp) :
  isLoading (sessionStep s o) = isLoading s.
Proof.
  destruct o as [[t input|t k]|value| | | | | | | | | |]; cbn;
    try reflexivity.
  - unfold addText. destruct (negb _); reflexivity.
  - unfold onProductChange. destruct (find _ _); reflexivity.
Qed.

Lemma sessionRun_isLoading (ops : list SessionOp) (s : State) :
  isLoading (sessionRun s ops) = isLoading s.
Proof.
  revert s. induction ops as [|o ops IH]; intros s; [reflexivity|].
  change (sessionRun s (o :: ops)) with (sessionRun (sessionStep s o) ops).
  rewrite IH. apply sessionStep_isLoading.
Qed.

(** Once a save has returned a non-empty identifier, the save button reads
    "Design Saved" whatever the shopper edits or selects afterwards, even
    though the saved design no longer matches the canvas. *)
Theorem saved_label_survives_edits (w : World) (resp : FetchOutcome)
    (s0 : State) (id : string) (ops : list SessionOp) :
  result (saveDesign w resp s0) = Some id ->
  id <> "" ->
  saveButtonLabel (sessionRun (final (saveDesign w resp s0)) ops)
  = "Design Saved".
Proof.
  intros Hok Hne.
  destruct (saveDesign_success w resp s0 id Hok) as (_ & _ & [p Hp] & _ & Hfinal).
  destruct (sessionRun_frame ops (final (saveDesign w resp s0))) as [_ Hid].
  { rewrite Hfinal. cbn. eauto. }
  unfold saveButtonLabel. rewrite sessionRun_isLoading, Hid, Hfinal. cbn.
  destruct id; [contradiction|reflexivity].
Qed.

Lemma saved_label_survives_edits_witness :
  saveButtonLabel Sample.editedAfterSave = "Design Saved"
  /\ elements Sample.editedAfterSave <> elements Sample.withText.
Proof.
  split.
  - apply (saved_label_survives_edits Sample.shopper (FetchOk "d1")
             Sample.withText "d1" [Edit (OpAddShape 2000 circle)]).
    + reflexivity.
    + discriminate.
  - cbn. discriminate.
Defined.

(** Text can be added once per input: the handler clears the input, so
    running it again, as on a double click, adds nothing more. *)
Theorem add_text_twice_adds_once (t1 t2 : Z) (s : State) :
  addText t2 (addText t1 s) = addText t1 s.
Proof.
  destruct (negb (JsString.truthy (JsString.trim (textInput s)))) eqn:Hblank.
  - assert (H : forall t, addText t s = s)
      by (intros t; unfold addText; now rewrite Hblank).
    now rewrite !H.
  - assert (H : addText t1 s
                = setTextInput ""
                    (setElements (elements s ++ [newTextElement t1 s]) s))
      by (unfold addText; now rewrite Hblank).
    rewrite H. reflexivity.
Qed.

(** The quantity controls, for quantities in the range where the
    component's numbers are exact integers (up to 2^53). Typing an integer
    stores it if it is at least one and stores one otherwise (also for an
    input that is not a number); the minus button stops at one; plus
    followed by minus gives back a quantity between 1 and 2^53 - 1. *)
Theorem quantity_controls_clamp_at_one (parsed : option Z) (s : State) :
  quantity (onQuantityInput parsed s)
    = match parsed with Some n => Z.max 1 n | None => 1 end
  /\ (quantity s <= 2 ^ 53 ->
      quantity (decreaseQuantity s) = Z.max 1 (quantity s - 1)
      /\ 1 <= quantity (decreaseQuantity s) <= Z.max 1 (quantity s))
  /\ (1 <= quantity s < 2 ^ 53 ->
      quantity (increaseQuantity s) = quantity s + 1
      /\ quantity (decreaseQuantity (increaseQuantity s)) = quantity s).
Proof.
  split; [|split].
  - destruct parsed as [n|]; cbn; [|reflexivity].
    destruct (Z.eqb_spec n 0) as [->|_]; reflexivity.
  - intros _. unfold decreaseQuantity, setQuantity. cbn [quantity]. lia.
  - intros [Hlo _]. unfold decreaseQuantity, increaseQuantity, setQuantity.
    cbn [quantity]. lia.
Qed.

Lemma quantity_controls_clamp_at_one_witness :
  quantity (onQuantityInput (Some (-3)) Sample.loaded) = 1
  /\ quantity (onQuantityInput (Some 0) Sample.loaded) = 1
  /\ quantity (onQuantityInput None Sample.loaded) = 1
  /\ quantity (onQuantityInput (Some 4) Sample.loaded) = 4
  /\ quantity (decreaseQuantity Sample.loaded) = 1
  /\ quantity (decreaseQuantity (increaseQuantity Sample.loaded)) = 1.
Proof.
  assert (Hsafe : 1 <= quantity Sample.loaded < 2 ^ 53)
    by (vm_compute; split; [discriminate|reflexivity]).
  destruct (quantity_controls_clamp_at_one (Some (-3)) Sample.loaded)
    as (H1 & H2 & H3).
  destruct (quantity_controls_clamp_at_one (Some 0) Sample.loaded)
    as (H4 & _ & _).
  destruct (quantity_controls_clamp_at_one None Sample.loaded) as (H5 & _ & _).
  destruct (quantity_controls_clamp_at_one (Some 4) Sample.loaded)
    as (H6 & _ & _).
  split; [exact H1|]. split; [exact H4|]. split; [exact H5|].
  split; [exact H6|]. split; [apply H2; apply Z.lt_le_incl, Hsafe|].
  apply H3, Hsafe.
Defined.

Section CartFacts.

Context {num : Type} {JN : JsNumber num}.

(** With a user signed in and a product selected, add-to-cart submits
    exactly one cart item, whatever the outcome of the implicit save and of
    the cart call: for the selected product, with the quantity, size and
    color on screen, at the price shown on the button and in the panel. *)
Theorem cart_submits_what_is_shown (w : World) (u : User) (p : Product.t)
    (saveResp : FetchOutcome) (cartResp : MutationOutcome) (s : State) :
  user w = Some u ->
  selectedProduct s = Some p ->
  isLoading s = false ->
  exists item,
    cartItems (trace (addToCartWithDesign w saveResp cartResp s)) = [item]
    /\ CartItemData.productId item = Product.id p
    /\ CartItemData.quantity item = quantity s
    /\ CartItemData.size item = selectedSize s
    /\ CartItemData.color item = selectedColor s
    /\ cartButtonLabel s = "Add to Cart - $" +:+ CartItemData.customPrice item
    /\ unitPriceText s = Some (CartItemData.customPrice item).
Proof.
  intros Hu Hp Hl.
  destruct (act_cartItems s (ClickAddToCart w saveResp cartResp))
    as [Hnone|(w' & sr & cr & p' & [= <- <- <-] & Hp' & Hitems)];
    cbn [act] in *.
  - exfalso. revert Hnone. unfold addToCartWithDesign. rewrite Hu, Hp.
    cbv zeta. cbn [trace]. rewrite cartItems_app. cbn.
    intros H. apply app_eq_nil in H as [_ H]. destruct cartResp; discriminate.
  - rewrite Hp in Hp'. injection Hp' as <-.
    eexists. split; [exact Hitems|]. cbn.
    unfold cartButtonLabel, unitPriceText, derivedUnitPrice.
    rewrite Hl, Hp. repeat split.
Qed.

(** Without a signed-in user, or without a selected product, add-to-cart
    does nothing but show a notice: no cart item, no creation request, and
    the state is as it was. *)
Theorem add_to_cart_needs_user_and_product (w : World)
    (saveResp : FetchOutcome) (cartResp : MutationOutcome) (s : State) :
  user w = None \/ selectedProduct s = None ->
  final (addToCartWithDesign w saveResp cartResp s) = s
  /\ trace (addToCartWithDesign w saveResp cartResp s)
     = [ToastError (match user w with
                    | None => "Please login to add items to cart"
                    | Some _ => "Please select a product first"
                    end)].
Proof.
  intros H. unfold addToCartWithDesign.
  destruct (user w); [|split; reflexivity].
  destruct H as [H|H]; [discriminate|]. rewrite H. split; reflexivity.
Qed.

(** A design saved on the way to the cart and later added to the cart
    from the designs page gives a cart item for the same product, design,
    size and color, at the same price, as the canvas did; the designs page
    always asks for one piece. *)
Theorem saved_design_priced_alike_on_both_pages (w : World) (u : User)
    (p : Product.t) (id createdAt : string) (cartResp later : MutationOutcome)
    (s : State) :
  user w = Some u ->
  selectedProduct s = Some p ->
  elements s <> [] ->
  truthyId (savedDesignId s) = false ->
  exists item,
    cartItems (trace (addToCartWithDesign w (FetchOk id) cartResp s)) = [item]
    /\ filter isPost (trace (addToCartWithDesign w (FetchOk id) cartResp s))
       = [PostDesign (designBody w p s)]
    /\ head (addDesignToCart (Some u) later
               (storedDesign id createdAt (designBody w p s)))
       = Some (PageAddToCart
                 (DesignCartItem.mk (userId u)
                    (CartItemData.productId item) id 1
                    (CartItemData.size item) (CartItemData.color item)
                    (CartItemData.customPrice item)))
    /\ CartItemData.designId item = Some id.
Proof.
  intros Hu Hp He Hid.
  destruct (addToCart_implicit_save w u p (FetchOk id) cartResp s Hu Hp He Hid)
    as (_ & _ & Hitems).
  eexists. split; [exact Hitems|]. cbn.
  split; [|split; [|reflexivity]].
  - unfold addToCartWithDesign. rewrite Hu, Hp, Hid.
    unfold saveDesign. rewrite Hu. cbn. rewrite Hp.
    destruct (elements s) as [|e els] eqn:Hels; [contradiction|]. cbn.
    unfold designBody. rewrite Hels. destruct cartResp; reflexivity.
  - unfold unitPrice. destruct (elements s); [contradiction|]. reflexivity.
Qed.

End CartFacts.

Lemma cart_submits_what_is_shown_witness :
  exists item,
    cartItems (trace (addToCartWithDesign (num := option Q) Sample.shopper
                        FetchRejected MutationRejected Sample.withText))
    = [item]
    /\ CartItemData.productId item = "p1"
    /\ CartItemData.quantity item = 1
    /\ CartItemData.size item = Some "S"
    /\ CartItemData.color item = Some "white"
    /\ cartButtonLabel (num := option Q) Sample.withText
       = "Add to Cart - $" +:+ CartItemData.customPrice item
    /\ unitPriceText (num := option Q) Sample.withText
       = Some (CartItemData.customPrice item).
Proof.
  apply (cart_submits_what_is_shown (num := option Q) Sample.shopper
           {| userId := "u1" |} Sample.tee FetchRejected MutationRejected
           Sample.withText); reflexivity.
Defined.

Lemma add_to_cart_needs_user_and_product_witness :
  final (addToCartWithDesign (num := option Q) Sample.visitor (FetchOk "d1")
           MutationResolved Sample.withText) = Sample.withText
  /\ trace (addToCartWithDesign (num := option Q) Sample.visitor (FetchOk "d1")
              MutationResolved Sample.withText)
     = [ToastError "Please login to add items to cart"].
Proof.
  apply (add_to_cart_needs_user_and_product (num := option Q) Sample.visitor
           (FetchOk "d1") MutationResolved Sample.withText).
  left. reflexivity.
Defined.

Lemma saved_design_priced_alike_on_both_pages_witness :
  exists item,
    cartItems (trace (addToCartWithDesign (num := option Q) Sample.shopper
                        (FetchOk "d1") MutationResolved Sample.withText))
    = [item]
    /\ filter isPost
         (trace (addToCartWithDesign (num := option Q) Sample.shopper
                   (FetchOk "d1") MutationResolved Sample.withText))
       = [PostDesign (designBody Sample.shopper Sample.tee Sample.withText)]
    /\ head (addDesignToCart (num := option Q) (Some {| userId := "u1" |})
               MutationResolved
               (storedDesign "d1" "2025-01-01"
                  (designBody Sample.shopper Sample.tee Sample.withText)))
       = Some (PageAddToCart
                 (DesignCartItem.mk "u1" (CartItemData.productId item) "d1" 1
                    (CartItemData.size item) (CartItemData.color item)
                    (CartItemData.customPrice item)))
    /\ CartItemData.designId item = Some "d1".
Proof.
  apply (saved_design_priced_alike_on_both_pages (num := option Q)
           Sample.shopper {| userId := "u1" |} Sample.tee "d1" "2025-01-01"
           MutationResolved MutationResolved Sample.withText);
    try reflexivity.
  discriminate.
Defined.

Lemma design_reference_implies_fee_witness :
  Forall
    (fun item =>
       CartItemData.designId item = Some "d1"
       /\ CartItemData.customPrice item = "25.00")
    (cartItems
       (trace (addToCartWithDesign (num := option Q) Sample.shopper FetchNotOk
                 MutationResolved
                 (final (session (num := option Q) initialState
                           [ProductsArrive (ProductsLoaded [Sample.tee]);
                            Ui (Edit (OpAddText 1000 "Hi"));
                            ClickSave Sample.shopper (FetchOk "d1")]))))).
Proof.
  pose proof (design_reference_implies_fee (num := option Q)
                [ProductsArrive (ProductsLoaded [Sample.tee]);
                 Ui (Edit (OpAddText 1000 "Hi"));
                 ClickSave Sample.shopper (FetchOk "d1")]
                Sample.shopper FetchNotOk MutationResolved) as H.
  assert (Hstate :
            final (session (num := option Q) initialState
                     [ProductsArrive (ProductsLoaded [Sample.tee]);
                      Ui (Edit (OpAddText 1000 "Hi"));
                      ClickSave Sample.shopper (FetchOk "d1")])
            = Sample.saved) by (vm_compute; reflexivity).
  rewrite Hstate in *.
  assert (Hitems :
            cartItems
              (trace (addToCartWithDesign (num := option Q) Sample.shopper
                        FetchNotOk MutationResolved Sample.saved))
            = [CartItemData.mk "p1" (Some "d1") 1 (Some "S") (Some "white")
                 "25.00"]) by (vm_compute; reflexivity).
  rewrite Hitems in *.
  apply Forall_cons_1 in H as [H _].
  destruct (H "d1" eq_refl ltac:(discriminate)) as (p & Hp & Hprice).
  constructor; [split; [reflexivity|reflexivity]|constructor].
Defined.

Lemma cart_design_ids_come_from_responses_witness :
  "d7" ∈ createdIds
           [ProductsArrive (ProductsLoaded [Sample.tee]);
            Ui (Edit (OpAddShape 1000 circle));
            ClickAddToCart Sample.shopper (FetchOk "d7") MutationResolved].
Proof.
  pose proof (cart_design_ids_come_from_responses (num := option Q)
                [ProductsArrive (ProductsLoaded [Sample.tee]);
                 Ui (Edit (OpAddShape 1000 circle));
                 ClickAddToCart Sample.shopper (FetchOk "d7") MutationResolved])
    as H.
  assert (Hitems :
            cartItems
              (trace (session (num := option Q) initialState
                        [ProductsArrive (ProductsLoaded [Sample.tee]);
                         Ui (Edit (OpAddShape 1000 circle));
                         ClickAddToCart Sample.shopper (FetchOk "d7")
                           MutationResolved]))
            = [CartItemData.mk "p1" (Some "d7") 1 (Some "S") (Some "white")
                 "25.00"]) by (vm_compute; reflexivity).
  rewrite Hitems in H.
  apply Forall_cons_1 in H as [H _].
  exact (H "d7" eq_refl).
Defined.
